(** * wao-ui: cart store, catalog selection and push-notification provider

    A shallow embedding of the two stateful pieces of the marketplace
    client:

    - [app/buyer/marketplace/page.tsx]: the page-level cart
      ([cart], [selectedOptions], [quantities]) and its handlers
      [handleOptionSelect], [handleQuantityChange], [addToCart],
      [removeFromCart], [getTotalAmount];
    - [components/websocket-provider.tsx]: the [WebSocketProvider]
      component (role read at mount, the socket hook, the message effect,
      the dismiss timers and the context value computed while rendering).

    Conventions.  A JavaScript [number] that holds a count, a price or a
    time in milliseconds is a [Z] (the handlers only ever receive integers:
    [Number.parseInt(..) || 1], [q + 1], [q - 1], array indices).  An object
    used as a dictionary ([{ [productId: string]: ... }]) is a [gmap] with
    string keys, [undefined] being [None].  React state is threaded
    explicitly: a handler is a function from the state it closes over to the
    state after its setters have run, and each handler runs to completion
    before the next event (one thread, one event at a time).

    Left out: [NaN] and fractional numbers, rounding of large numbers to
    doubles, product ids that collide with a property of
    [Object.prototype], and everything the pages do besides the cart, the
    selection and the push notifications (fetching, pagination, routing,
    markup). *)

From Stdlib Require Import ZArith Lia Ascii String List DecimalString.
From stdpp Require Import base option list gmap strings.

Local Open Scope string_scope.
Local Open Scope list_scope.

#[local] Set Warnings "-register-all".

(** ** JavaScript arrays *)

(** [Array.prototype.findIndex]: the first index whose element satisfies
    [f], [-1] when there is none.  [i] is the index of the head. *)
Fixpoint findIndex_from {A : Type} (i : Z) (f : A → bool) (l : list A) : Z :=
  match l with
  | [] => (-1)%Z
  | x :: l' => if f x then i else findIndex_from (i + 1)%Z f l'
  end.

Definition findIndex {A : Type} (f : A → bool) (l : list A) : Z :=
  findIndex_from 0%Z f l.

(** [Array.prototype.filter] with the two-argument callback
    [(element, index) => ...]. *)
Fixpoint filter_from {A : Type} (i : Z) (f : A → Z → bool) (l : list A) : list A :=
  match l with
  | [] => []
  | x :: l' =>
      if f x i then x :: filter_from (i + 1)%Z f l' else filter_from (i + 1)%Z f l'
  end.

Definition filter_indexed {A : Type} (f : A → Z → bool) (l : list A) : list A :=
  filter_from 0%Z f l.

(** [Array.prototype.reduce] with an initial value. *)
Definition reduce {A B : Type} (f : B → A → B) (init : B) (l : list A) : B :=
  fold_left f l init.

(** ** Marketplace page: data *)

Module ProductOption.
Record t := mk {
  id : string;
  code : string;
  name : string;
  price : Z;
  quantity : Z }.
End ProductOption.

Module Product.
Record t := mk {
  id : string;
  code : string;
  name : string;
  img : string;
  options : list ProductOption.t }.
End Product.

Module CartItem.
Record t := mk {
  productId : string;
  productName : string;
  productCode : string;
  optionId : string;
  optionName : string;
  price : Z;
  quantity : Z;
  maxQuantity : Z }.

(** [item.quantity += n] *)
Definition add_quantity (n : Z) (item : t) : t :=
  mk (productId item) (productName item) (productCode item) (optionId item)
     (optionName item) (price item) (quantity item + n) (maxQuantity item).

(** The callback of [cart.findIndex] in [addToCart]. *)
Definition is_line (pid oid : string) (item : t) : bool :=
  bool_decide (productId item = pid) && bool_decide (optionId item = oid).
End CartItem.

(** What [toast({ title, description, variant })] was called with. *)
Record Toast := {
  title : string;
  description : string;
  destructive : bool }.

(** The [useState] cells of [MarketplacePage] that the cart and selection
    handlers read or write. *)
Record PageState := {
  products : list Product.t;
  cart : list CartItem.t;
  selectedOptions : gmap string string;
  quantities : gmap string Z }.

Definition setProducts (ps : list Product.t) (s : PageState) : PageState :=
  {| products := ps; cart := cart s;
     selectedOptions := selectedOptions s; quantities := quantities s |}.

Definition setCart (c : list CartItem.t) (s : PageState) : PageState :=
  {| products := products s; cart := c;
     selectedOptions := selectedOptions s; quantities := quantities s |}.

Definition setSelectedOptions (f : gmap string string → gmap string string)
    (s : PageState) : PageState :=
  {| products := products s; cart := cart s;
     selectedOptions := f (selectedOptions s); quantities := quantities s |}.

Definition setQuantities (f : gmap string Z → gmap string Z)
    (s : PageState) : PageState :=
  {| products := products s; cart := cart s;
     selectedOptions := selectedOptions s; quantities := f (quantities s) |}.

(** ** Marketplace page: handlers *)

(** [products.find((p) => p.id === productId)] *)
Definition find_product (productId : string) (ps : list Product.t) : option Product.t :=
  find (λ p, bool_decide (Product.id p = productId)) ps.

(** [product?.options.find((opt) => opt.id === selectedOptionId)], where
    [selectedOptionId = selectedOptions[productId]] may be [undefined]; an
    option id is a string and is never [=== undefined]. *)
Definition find_option (product : option Product.t) (selectedOptionId : option string)
    : option ProductOption.t :=
  match product with
  | None => None
  | Some p =>
      find (λ opt, bool_decide (Some (ProductOption.id opt) = selectedOptionId))
           (Product.options p)
  end.

(** The first three [const]s shared by [handleQuantityChange] and
    [addToCart]. *)
Definition selected_option (productId : string) (s : PageState) : option ProductOption.t :=
  find_option (find_product productId (products s)) (selectedOptions s !! productId).

(** [quantities[productId] || 1]: [undefined] and [0] are falsy. *)
Definition quantity_or_1 (q : option Z) : Z :=
  match q with
  | None => 1%Z
  | Some q => if (q =? 0)%Z then 1%Z else q
  end.

(** [handleOptionSelect] *)
Definition handleOptionSelect (productId optionId : string) (s : PageState) : PageState :=
  setQuantities (λ prev, <[productId := 1%Z]> prev)
    (setSelectedOptions (λ prev, <[productId := optionId]> prev) s).

(** [handleQuantityChange] *)
Definition handleQuantityChange (productId : string) (quantity : Z) (s : PageState)
    : PageState :=
  match selected_option productId s with
  | Some selectedOption =>
      if (quantity <=? ProductOption.quantity selectedOption)%Z && (1 <=? quantity)%Z
      then setQuantities (λ prev, <[productId := quantity]> prev) s
      else s
  | None => s
  end.

(** The object literal [newItem] of [addToCart]. *)
Definition newItem (productId : string) (product : Product.t) (selectedOptionId : string)
    (selectedOption : ProductOption.t) (quantity : Z) : CartItem.t :=
  CartItem.mk productId (Product.name product) (Product.code product)
    selectedOptionId (ProductOption.name selectedOption)
    (ProductOption.price selectedOption) quantity
    (ProductOption.quantity selectedOption).

(** The cart update of [addToCart] (from [cart.findIndex] to the second
    [setCart]): the spec's [addOrMerge].  [[...cart]] copies the array, not
    the items, so [newCart[i].quantity += quantity] writes the line shared
    with the previous array; the previous array is dropped by [setCart]. *)
Definition addOrMerge (cart : list CartItem.t) (productId : string) (product : Product.t)
    (selectedOptionId : string) (selectedOption : ProductOption.t) (quantity : Z)
    : list CartItem.t :=
  let existingItemIndex := findIndex (CartItem.is_line productId selectedOptionId) cart in
  if (0 <=? existingItemIndex)%Z
  then alter (CartItem.add_quantity quantity) (Z.to_nat existingItemIndex) cart
  else cart ++ [newItem productId product selectedOptionId selectedOption quantity].

Definition select_option_toast : Toast :=
  {| title := "Error"; description := "Please select a product option";
     destructive := true |}.

Definition added_toast (product : Product.t) (selectedOption : ProductOption.t) : Toast :=
  {| title := "Added to cart";
     description :=
       (Product.name product ++ " - " ++ ProductOption.name selectedOption)%string;
     destructive := false |}.

(** [addToCart]: the state after the call and the toasts it raised. *)
Definition addToCart (productId : string) (s : PageState) : PageState * list Toast :=
  let product := find_product productId (products s) in
  let selectedOptionId := selectedOptions s !! productId in
  let selectedOption := find_option product selectedOptionId in
  let quantity := quantity_or_1 (quantities s !! productId) in
  match product, selectedOptionId, selectedOption with
  | Some product, Some selectedOptionId, Some selectedOption =>
      let s1 :=
        setCart (addOrMerge (cart s) productId product selectedOptionId
                   selectedOption quantity) s in
      let s2 := setSelectedOptions (λ prev, <[productId := EmptyString]> prev) s1 in
      let s3 := setQuantities (λ prev, <[productId := 1%Z]> prev) s2 in
      (s3, [added_toast product selectedOption])
  | _, _, _ => (s, [select_option_toast])
  end.

(** [removeFromCart] *)
Definition removeFromCart (index : Z) (s : PageState) : PageState :=
  let newCart := filter_indexed (λ _ i, negb (i =? index)%Z) (cart s) in
  setCart newCart s.

(** [getTotalAmount]: the value returned, and the state it leaves. *)
Definition getTotalAmount (s : PageState) : Z * PageState :=
  (reduce (λ total item, (total + CartItem.price item * CartItem.quantity item)%Z)
          0%Z (cart s),
   s).

(** The controls under a product card: the quantity buttons and the [Add]
    button are rendered only inside [{selectedOptions[product.id] && (...)}]
    (the empty string is falsy), itself inside
    [{product.options && product.options.length > 0 && (...)}]. *)
Definition add_button_rendered (product : Product.t) (s : PageState) : bool :=
  match Product.options product, selectedOptions s !! Product.id product with
  | _ :: _, Some sid => negb (bool_decide (sid = EmptyString))
  | _, _ => false
  end.

(** ** JSON values and the host functions of the provider *)

Module Json.

(** What [JSON.parse] returns.  A number keeps its decimal mantissa and
    exponent ([mantissa * 10 ^ exponent]); rounding to a double is not
    modelled.  The members of an object are in source order. *)
Inductive value :=
| JNull
| JBool (b : bool)
| JNumber (mantissa exponent : Z)
| JString (s : string)
| JArray (items : list value)
| JObject (members : list (string * value)).

(** ToBoolean of a property read; [None] is [undefined]. *)
Definition truthy (v : option value) : bool :=
  match v with
  | None | Some JNull => false
  | Some (JBool b) => b
  | Some (JNumber m _) => negb (m =? 0)%Z
  | Some (JString s) => negb (bool_decide (s = EmptyString))
  | Some (JArray _) | Some (JObject _) => true
  end.

(** The member an object ends up with for [key]: a later duplicate
    overwrites an earlier one. *)
Definition member (key : string) (members : list (string * value)) : option value :=
  fold_left (λ acc kv, if bool_decide (kv.1 = key) then Some kv.2 else acc) members None.

(** [v.key] for a parsed value and one of the keys the provider reads
    ([event], [data], [role]): reading a property of [null] throws a
    [TypeError] (outer [None]); a primitive or an array has no such
    property ([Some None], i.e. [undefined]). *)
Definition get (key : string) (v : value) : option (option value) :=
  match v with
  | JNull => None
  | JObject members => Some (member key members)
  | _ => Some None
  end.

(** [v === "literal"] for a property read. *)
Definition is_string (lit : string) (v : option value) : bool :=
  match v with
  | Some (JString s) => bool_decide (s = lit)
  | _ => false
  end.

(** *** A reference parser for JSON text

    The provider is parametric in [JSON.parse]; this parser is the instance
    used to run it on concrete frames. *)

Definition code (c : ascii) : N := N_of_ascii c.

Definition is_ws (c : ascii) : bool :=
  let n := code c in
  (n =? 32)%N || (n =? 9)%N || (n =? 10)%N || (n =? 13)%N.

Fixpoint skip_ws (l : list ascii) : list ascii :=
  match l with
  | c :: rest => if is_ws c then skip_ws rest else l
  | [] => []
  end.

Definition digit_val (c : ascii) : option Z :=
  let n := code c in
  if (48 <=? n)%N && (n <=? 57)%N then Some (Z.of_N n - 48)%Z else None.

Definition hex_val (c : ascii) : option N :=
  let n := code c in
  if (48 <=? n)%N && (n <=? 57)%N then Some (n - 48)%N
  else if (65 <=? n)%N && (n <=? 70)%N then Some (n - 55)%N
  else if (97 <=? n)%N && (n <=? 102)%N then Some (n - 87)%N
  else None.

Fixpoint span_digits (l : list ascii) : list Z * list ascii :=
  match l with
  | c :: rest =>
      match digit_val c with
      | Some d => let '(ds, r) := span_digits rest in (d :: ds, r)
      | None => ([], l)
      end
  | [] => ([], [])
  end.

Definition digits_val (ds : list Z) : Z :=
  fold_left (λ acc d, (acc * 10 + d)%Z) ds 0%Z.

(** [-? int frac? exp?] *)
Definition parse_number (l : list ascii) : option (value * list ascii) :=
  let '(neg, l1) :=
    match l with
    | c :: r => if (code c =? 45)%N then (true, r) else (false, l)
    | [] => (false, l)
    end in
  let '(ip, l2) := span_digits l1 in
  match ip with
  | [] => None
  | 0%Z :: _ :: _ => None
  | _ =>
      let frac :=
        match l2 with
        | c :: r =>
            if (code c =? 46)%N
            then match span_digits r with
                 | ([], _) => None
                 | (fp, r') => Some (fp, r')
                 end
            else Some ([], l2)
        | [] => Some ([], l2)
        end in
      match frac with
      | None => None
      | Some (fp, l3) =>
          let expo :=
            match l3 with
            | c :: r =>
                if (code c =? 101)%N || (code c =? 69)%N then
                  let '(eneg, r1) :=
                    match r with
                    | d :: r' =>
                        if (code d =? 45)%N then (true, r')
                        else if (code d =? 43)%N then (false, r')
                        else (false, r)
                    | [] => (false, r)
                    end in
                  match span_digits r1 with
                  | ([], _) => None
                  | (ep, r2) =>
                      Some ((if eneg then - digits_val ep else digits_val ep)%Z, r2)
                  end
                else Some (0%Z, l3)
            | [] => Some (0%Z, l3)
            end in
          match expo with
          | None => None
          | Some (e, l4) =>
              let m := digits_val (ip ++ fp) in
              Some (JNumber (if neg then - m else m)%Z (e - Z.of_nat (length fp))%Z, l4)
          end
      end
  end.

(** The UTF-8 bytes of a [\uXXXX] escape (a surrogate half is encoded on
    its own). *)
Definition utf8 (n : N) : string :=
  let b := λ k : N, ascii_of_N k in
  if (n <? 128)%N then String (b n) EmptyString
  else if (n <? 2048)%N then
    String (b (192 + n / 64)%N) (String (b (128 + n mod 64)%N) EmptyString)
  else
    String (b (224 + n / 4096)%N)
      (String (b (128 + (n / 64) mod 64)%N)
         (String (b (128 + n mod 64)%N) EmptyString)).

Definition escape (c : ascii) : option ascii :=
  let n := code c in
  if (n =? 34)%N || (n =? 92)%N || (n =? 47)%N then Some c
  else if (n =? 98)%N then Some (ascii_of_N 8)
  else if (n =? 102)%N then Some (ascii_of_N 12)
  else if (n =? 110)%N then Some (ascii_of_N 10)
  else if (n =? 114)%N then Some (ascii_of_N 13)
  else if (n =? 116)%N then Some (ascii_of_N 9)
  else None.

(** The characters of a string literal after its opening quote, up to and
    including the closing quote. *)
Fixpoint parse_chars (l : list ascii) : option (string * list ascii) :=
  match l with
  | [] => None
  | c :: rest =>
      if (code c =? 34)%N then Some (EmptyString, rest)
      else if (code c =? 92)%N then
        match rest with
        | e :: rest1 =>
            if (code e =? 117)%N then
              match rest1 with
              | h1 :: h2 :: h3 :: h4 :: rest2 =>
                  match hex_val h1, hex_val h2, hex_val h3, hex_val h4 with
                  | Some a, Some b, Some c', Some d =>
                      match parse_chars rest2 with
                      | Some (s, r) =>
                          Some ((utf8 (((a * 16 + b) * 16 + c') * 16 + d)%N ++ s)%string, r)
                      | None => None
                      end
                  | _, _, _, _ => None
                  end
              | _ => None
              end
            else
              match escape e, parse_chars rest1 with
              | Some x, Some (s, r) => Some (String x s, r)
              | _, _ => None
              end
        | [] => None
        end
      else if (code c <? 32)%N then None
      else
        match parse_chars rest with
        | Some (s, r) => Some (String c s, r)
        | None => None
        end
  end.

(** [l] starts with the characters of [word]. *)
Fixpoint strip_prefix (word : string) (l : list ascii) : option (list ascii) :=
  match word, l with
  | EmptyString, _ => Some l
  | String w word', c :: rest =>
      if Ascii.eqb w c then strip_prefix word' rest else None
  | String _ _, [] => None
  end.

(** Recursive descent; [fuel] bounds the number of nested and successive
    calls, and [parse] gives more than any text can use. *)
Fixpoint parse_value (fuel : nat) (l : list ascii) : option (value * list ascii) :=
  match fuel with
  | O => None
  | S fuel' =>
      match skip_ws l with
      | [] => None
      | c :: rest =>
          let n := code c in
          if (n =? 123)%N then
            match skip_ws rest with
            | c1 :: rest1 =>
                if (code c1 =? 125)%N then Some (JObject [], rest1)
                else parse_members fuel' [] (c1 :: rest1)
            | [] => None
            end
          else if (n =? 91)%N then
            match skip_ws rest with
            | c1 :: rest1 =>
                if (code c1 =? 93)%N then Some (JArray [], rest1)
                else parse_elements fuel' [] (c1 :: rest1)
            | [] => None
            end
          else if (n =? 34)%N then
            match parse_chars rest with
            | Some (s, r) => Some (JString s, r)
            | None => None
            end
          else if (n =? 116)%N then
            option_map (λ r, (JBool true, r)) (strip_prefix "rue" rest)
          else if (n =? 102)%N then
            option_map (λ r, (JBool false, r)) (strip_prefix "alse" rest)
          else if (n =? 110)%N then
            option_map (λ r, (JNull, r)) (strip_prefix "ull" rest)
          else parse_number (c :: rest)
      end
  end
with parse_elements (fuel : nat) (acc : list value) (l : list ascii)
    : option (value * list ascii) :=
  match fuel with
  | O => None
  | S fuel' =>
      match parse_value fuel' l with
      | Some (v, r) =>
          match skip_ws r with
          | c :: r1 =>
              if (code c =? 44)%N then parse_elements fuel' (acc ++ [v]) r1
              else if (code c =? 93)%N then Some (JArray (acc ++ [v]), r1)
              else None
          | [] => None
          end
      | None => None
      end
  end
with parse_members (fuel : nat) (acc : list (string * value)) (l : list ascii)
    : option (value * list ascii) :=
  match fuel with
  | O => None
  | S fuel' =>
      match skip_ws l with
      | q :: r0 =>
          if (code q =? 34)%N then
            match parse_chars r0 with
            | Some (k, r1) =>
                match skip_ws r1 with
                | c :: r2 =>
                    if (code c =? 58)%N then
                      match parse_value fuel' r2 with
                      | Some (v, r3) =>
                          match skip_ws r3 with
                          | d :: r4 =>
                              if (code d =? 44)%N
                              then parse_members fuel' (acc ++ [(k, v)]) r4
                              else if (code d =? 125)%N
                              then Some (JObject (acc ++ [(k, v)]), r4)
                              else None
                          | [] => None
                          end
                      | None => None
                      end
                    else None
                | [] => None
                end
            | None => None
            end
          else None
      | [] => None
      end
  end.

(** [JSON.parse(text)]; [None] stands for the [SyntaxError] it throws. *)
Definition parse (text : string) : option value :=
  let l := list_ascii_of_string text in
  match parse_value (2 * length l + 2) l with
  | Some (v, rest) =>
      match skip_ws rest with
      | [] => Some v
      | _ :: _ => None
      end
  | None => None
  end.

(** *** [atob]: forgiving base64 decoding *)

Definition sextet (c : ascii) : option N :=
  let n := code c in
  if (65 <=? n)%N && (n <=? 90)%N then Some (n - 65)%N
  else if (97 <=? n)%N && (n <=? 122)%N then Some (n - 71)%N
  else if (48 <=? n)%N && (n <=? 57)%N then Some (n + 4)%N
  else if (n =? 43)%N then Some 62%N
  else if (n =? 47)%N then Some 63%N
  else None.

Definition is_base64_ws (c : ascii) : bool :=
  is_ws c || (code c =? 12)%N.

(** Drops one or two trailing [=] when the length is a multiple of four. *)
Definition strip_padding (l : list ascii) : list ascii :=
  if (length l mod 4 =? 0)%nat then
    match rev l with
    | a :: b :: r =>
        if (code a =? 61)%N
        then if (code b =? 61)%N then rev r else rev (b :: r)
        else l
    | _ => l
    end
  else l.

Fixpoint decode_sextets (l : list N) : option (list ascii) :=
  match l with
  | [] => Some []
  | [_] => None
  | [a; b] => Some [ascii_of_N ((a * 4 + b / 16) mod 256)]
  | [a; b; c] =>
      Some [ascii_of_N ((a * 4 + b / 16) mod 256);
            ascii_of_N ((b * 16 + c / 4) mod 256)]
  | a :: b :: c :: d :: rest =>
      match decode_sextets rest with
      | Some out =>
          Some (ascii_of_N ((a * 4 + b / 16) mod 256)
                :: ascii_of_N ((b * 16 + c / 4) mod 256)
                :: ascii_of_N ((c * 64 + d) mod 256) :: out)
      | None => None
      end
  end.

(** [atob(text)]; [None] stands for the [InvalidCharacterError]. *)
Definition atob (text : string) : option string :=
  let l := strip_padding (List.filter (λ c, negb (is_base64_ws c)) (list_ascii_of_string text)) in
  match mapM sextet l with
  | Some ss => option_map string_of_list_ascii (decode_sextets ss)
  | None => None
  end.

(** Writes a JSON text with apostrophes in place of the double quotes. *)
Definition text (s : string) : string :=
  string_of_list_ascii
    (map (λ c, if (code c =? 39)%N then ascii_of_N 34 else c) (list_ascii_of_string s)).

End Json.

(** [text.split(sep)] for a one-character separator. *)
Fixpoint split_on (sep : ascii) (text : string) : list string :=
  match text with
  | EmptyString => [EmptyString]
  | String c rest =>
      if Ascii.eqb c sep then EmptyString :: split_on sep rest
      else
        match split_on sep rest with
        | head :: tail => String c head :: tail
        | [] => [String c EmptyString]
        end
  end.

(** ** WebSocket provider: data *)

(** The connection status of the push channel.  [Disconnected] covers the
    hook's [UNINSTANTIATED] and [CLOSED] ready states (no live socket),
    [Connecting] is [CONNECTING] and [Connected] is [OPEN]. *)
Inductive Channel := Disconnected | Connecting | Connected.

(** The callbacks handed to [setTimeout]. *)
Inductive Timer :=
| HideNotification        (* () => setShowNotification(false) *)
| HideOrderNotification   (* () => setShowOrderNotification(false) *)
| Reconnect.              (* the hook's reconnect after [reconnectInterval] *)

(** What the provider does to the outside world, oldest first. *)
Inductive Output :=
| ConsoleLog (message : string)
| ConsoleError (message : string)
| ToastShown (t : Toast)
| ConnectAttempt (url : string).

(** An exception that nothing catches. *)
Inductive Uncaught := SyntaxError.

Record ProviderState := {
  userRole : option Json.value;          (* useState<string | null>(null) *)
  showNotification : bool;
  newProduct : option Json.value;
  showOrderNotification : bool;
  updatedOrder : option Json.value;
  readyState : Channel;                  (* from useWebSocket *)
  lastMessage : option string;           (* lastMessage.data, from useWebSocket *)
  reconnectCount : nat;                  (* inside useWebSocket *)
  now : Z;                               (* the clock, in milliseconds *)
  timers : list (Z * Timer);             (* pending timeouts, by deadline *)
  outputs : list Output }.

Definition setUserRole (v : option Json.value) (s : ProviderState) : ProviderState :=
  {| userRole := v; showNotification := showNotification s;
     newProduct := newProduct s; showOrderNotification := showOrderNotification s;
     updatedOrder := updatedOrder s; readyState := readyState s;
     lastMessage := lastMessage s; reconnectCount := reconnectCount s;
     now := now s; timers := timers s; outputs := outputs s |}.

Definition setShowNotification (b : bool) (s : ProviderState) : ProviderState :=
  {| userRole := userRole s; showNotification := b;
     newProduct := newProduct s; showOrderNotification := showOrderNotification s;
     updatedOrder := updatedOrder s; readyState := readyState s;
     lastMessage := lastMessage s; reconnectCount := reconnectCount s;
     now := now s; timers := timers s; outputs := outputs s |}.

Definition setNewProduct (v : option Json.value) (s : ProviderState) : ProviderState :=
  {| userRole := userRole s; showNotification := showNotification s;
     newProduct := v; showOrderNotification := showOrderNotification s;
     updatedOrder := updatedOrder s; readyState := readyState s;
     lastMessage := lastMessage s; reconnectCount := reconnectCount s;
     now := now s; timers := timers s; outputs := outputs s |}.

Definition setShowOrderNotification (b : bool) (s : ProviderState) : ProviderState :=
  {| userRole := userRole s; showNotification := showNotification s;
     newProduct := newProduct s; showOrderNotification := b;
     updatedOrder := updatedOrder s; readyState := readyState s;
     lastMessage := lastMessage s; reconnectCount := reconnectCount s;
     now := now s; timers := timers s; outputs := outputs s |}.

Definition setUpdatedOrder (v : option Json.value) (s : ProviderState) : ProviderState :=
  {| userRole := userRole s; showNotification := showNotification s;
     newProduct := newProduct s; showOrderNotification := showOrderNotification s;
     updatedOrder := v; readyState := readyState s;
     lastMessage := lastMessage s; reconnectCount := reconnectCount s;
     now := now s; timers := timers s; outputs := outputs s |}.

Definition set_hook (c : Channel) (m : option string) (n : nat) (s : ProviderState)
    : ProviderState :=
  {| userRole := userRole s; showNotification := showNotification s;
     newProduct := newProduct s; showOrderNotification := showOrderNotification s;
     updatedOrder := updatedOrder s; readyState := c;
     lastMessage := m; reconnectCount := n;
     now := now s; timers := timers s; outputs := outputs s |}.

Definition set_clock (t : Z) (q : list (Z * Timer)) (s : ProviderState) : ProviderState :=
  {| userRole := userRole s; showNotification := showNotification s;
     newProduct := newProduct s; showOrderNotification := showOrderNotification s;
     updatedOrder := updatedOrder s; readyState := readyState s;
     lastMessage := lastMessage s; reconnectCount := reconnectCount s;
     now := t; timers := q; outputs := outputs s |}.

Definition emit (o : list Output) (s : ProviderState) : ProviderState :=
  {| userRole := userRole s; showNotification := showNotification s;
     newProduct := newProduct s; showOrderNotification := showOrderNotification s;
     updatedOrder := updatedOrder s; readyState := readyState s;
     lastMessage := lastMessage s; reconnectCount := reconnectCount s;
     now := now s; timers := timers s; outputs := outputs s ++ o |}.

(** The timer queue: a new timeout goes behind the pending ones that are
    due no later. *)
Fixpoint enqueue (deadline : Z) (t : Timer) (q : list (Z * Timer)) : list (Z * Timer) :=
  match q with
  | [] => [(deadline, t)]
  | (d, t') :: q' =>
      if (d <=? deadline)%Z then (d, t') :: enqueue deadline t q'
      else (deadline, t) :: q
  end.

(** [setTimeout(callback, delay)]; the handle it returns is discarded by
    every caller in the provider. *)
Definition setTimeout (t : Timer) (delay : Z) (s : ProviderState) : ProviderState :=
  set_clock (now s) (enqueue (now s + delay)%Z t (timers s)) s.

(** What happens around the provider. *)
Inductive Event :=
| SocketOpen
| SocketError
| SocketClose
| SocketMessage (data : string)
| Clock (t : Z)                  (* the clock reaches [t]: due timeouts run *)
| CloseNotification              (* handleCloseNotification *)
| CloseOrderNotification.        (* handleCloseOrderNotification *)

(** One step of the component either commits a state or throws while
    rendering; nothing in the provider catches the latter. *)
Inductive Outcome :=
| Running (s : ProviderState)
| Crashed (e : Uncaught).

Definition websocket_url : string := "ws://localhost:8080/ws".
Definition reconnectAttempts : nat := 10.
Definition reconnectInterval : Z := 3000.
Definition dismiss_delay : Z := 100000.

Definition connected_toast : Toast :=
  {| title := "Connected"; description := "Real-time notifications enabled";
     destructive := false |}.

Definition connection_error_toast : Toast :=
  {| title := "Connection Error";
     description := "Failed to connect to real-time notifications";
     destructive := true |}.

Definition initial : ProviderState :=
  {| userRole := None; showNotification := false; newProduct := None;
     showOrderNotification := false; updatedOrder := None;
     readyState := Disconnected; lastMessage := None; reconnectCount := 0;
     now := 0%Z; timers := []; outputs := [] |}.

(** ** WebSocket provider: behaviour *)

Section WebSocketProvider.

(** The two host functions that can throw on their input: [None] is the
    exception. *)
Context (atob : string → option string).
Context (JSON_parse : string → option Json.value).

(** The third argument of [useWebSocket]: [userRole === "buyer"]. *)
Definition connect (s : ProviderState) : bool :=
  Json.is_string "buyer" (userRole s).

(** The body of the mount effect: the role to store, if [setUserRole] is
    reached, and what was logged. *)
Definition read_role (token : option string) : option (option Json.value) * list Output :=
  let failed := (None, [ConsoleError "Failed to parse token:"]) in
  match token with
  | None => (None, [])
  | Some token =>
      if bool_decide (token = EmptyString) then (None, [])
      else
        let segment := default "undefined" (split_on "." token !! 1%nat) in
        match atob segment with
        | None => failed
        | Some decoded =>
            match JSON_parse decoded with
            | None => failed
            | Some tokenPayload =>
                match Json.get "role" tokenPayload with
                | None => failed
                | Some role => (Some role, [])
                end
            end
        end
  end.

(** Modelled from the spec: the [useWebSocket] hook comes from the
    react-use-websocket package, which the provider calls but which is not
    in the repository.  Section 4.3 of the spec gives its state machine: the
    subscription is opened only while the [connect] flag holds; a handshake
    moves [Connecting] to [Connected] and runs [onOpen]; an error runs
    [onError]; a close runs [onClose], and, [shouldReconnect] being
    constantly true, schedules a reconnect after [reconnectInterval] unless
    [reconnectAttempts] have been used up; a frame on the open socket
    becomes [lastMessage].  Socket events need a socket: they are ignored
    when there is none. *)
Definition hook_connect (s : ProviderState) : ProviderState :=
  match connect s, readyState s with
  | true, Disconnected =>
      emit [ConnectAttempt websocket_url]
        (set_hook Connecting (lastMessage s) (reconnectCount s) s)
  | _, _ => s
  end.

(** Modelled from the spec: the same hook, reacting to an event of its
    socket (section 4.3, with the callbacks and the retry options the
    provider passes: ten attempts, 3000 ms apart). *)
Definition hook_event (e : Event) (s : ProviderState) : ProviderState :=
  match e, readyState s with
  | SocketOpen, Connecting =>
      emit [ConsoleLog "WebSocket connected"; ToastShown connected_toast]
        (set_hook Connected (lastMessage s) 0 s)
  | SocketError, (Connecting | Connected) =>
      emit [ConsoleError "WebSocket error:"; ToastShown connection_error_toast] s
  | SocketClose, (Connecting | Connected) =>
      let closed :=
        emit [ConsoleLog "WebSocket disconnected"]
          (set_hook Disconnected (lastMessage s) (reconnectCount s) s) in
      if (reconnectCount s <? reconnectAttempts)%nat
      then setTimeout Reconnect reconnectInterval
             (set_hook Disconnected (lastMessage s) (S (reconnectCount s)) closed)
      else closed
  | SocketMessage data, Connected =>
      set_hook Connected (Some data) (reconnectCount s) s
  | _, _ => s
  end.

(** Whether the hook hands a new [lastMessage] to the component. *)
Definition delivers (e : Event) (s : ProviderState) : bool :=
  match e, readyState s with
  | SocketMessage _, Connected => true
  | _, _ => false
  end.

(** The callback of a timeout. *)
Definition fire (s : ProviderState) (t : Z * Timer) : ProviderState :=
  match t.2 with
  | HideNotification => setShowNotification false s
  | HideOrderNotification => setShowOrderNotification false s
  | Reconnect => hook_connect s
  end.

(** The clock reaches [t]: the timeouts that are due run, earliest first. *)
Definition advance (t : Z) (s : ProviderState) : ProviderState :=
  if (now s <=? t)%Z then
    let due := List.filter (λ x, (x.1 <=? t)%Z) (timers s) in
    let pending := List.filter (λ x, negb (x.1 <=? t)%Z) (timers s) in
    fold_left fire due (set_clock t pending s)
  else s.

(** The effect on [[lastMessage, userRole]]: "Handle incoming WebSocket
    messages".  Reading [message.event] throws when [message] is [null];
    the [catch] takes that as well as the [SyntaxError] of [JSON.parse]. *)
Definition messageEffect (s : ProviderState) : ProviderState :=
  match lastMessage s with
  | Some data =>
      if connect s then
        match JSON_parse data with
        | None => emit [ConsoleError "Failed to parse WebSocket message:"] s
        | Some message =>
            let s0 := emit [ConsoleLog "Received WebSocket message:"] s in
            match Json.get "event" message, Json.get "data" message with
            | Some event, Some payload =>
                let s1 :=
                  if Json.is_string "product_created" event && Json.truthy payload
                  then setTimeout HideNotification dismiss_delay
                         (setShowNotification true (setNewProduct payload s0))
                  else s0 in
                if Json.is_string "order_updated" event && Json.truthy payload
                then setTimeout HideOrderNotification dismiss_delay
                       (setShowOrderNotification true (setUpdatedOrder payload s1))
                else s1
            | _, _ => emit [ConsoleError "Failed to parse WebSocket message:"] s0
            end
        end
      else s
  | None => s
  end.

(** What a render of the provider produces: the context value
    [{ connectionStatus, lastMessage }] and the notification cards. *)
Record Rendered := {
  connectionStatus : Channel;
  contextMessage : option Json.value;
  productCard : option Json.value;
  orderCard : option Json.value }.

(** [{showNotification && newProduct && <ProductNotification .../>}] *)
Definition productNotification (s : ProviderState) : option Json.value :=
  if showNotification s && Json.truthy (newProduct s) then newProduct s else None.

(** [{showOrderNotification && updatedOrder && <OrderNotification .../>}] *)
Definition orderNotification (s : ProviderState) : option Json.value :=
  if showOrderNotification s && Json.truthy (updatedOrder s) then updatedOrder s else None.

(** The [return] of [WebSocketProvider].  The context value is built with
    [lastMessage ? JSON.parse(lastMessage.data) : null], outside any [try]:
    the [SyntaxError] of [JSON.parse] leaves the render. *)
Definition render (s : ProviderState) : Rendered + Uncaught :=
  let card := (productNotification s, orderNotification s) in
  match lastMessage s with
  | None =>
      inl {| connectionStatus := readyState s; contextMessage := None;
             productCard := card.1; orderCard := card.2 |}
  | Some data =>
      match JSON_parse data with
      | Some message =>
          inl {| connectionStatus := readyState s; contextMessage := Some message;
                 productCard := card.1; orderCard := card.2 |}
      | None => inr SyntaxError
      end
  end.

(** The state updates an event causes before React renders again. *)
Definition handle (e : Event) (s : ProviderState) : ProviderState :=
  match e with
  | Clock t => advance t s
  | CloseNotification => setShowNotification false s
  | CloseOrderNotification => setShowOrderNotification false s
  | _ => hook_event e s
  end.

(** An event, the render it triggers, and the message effect when the
    render committed and [lastMessage] is new.  The render after the effect
    parses the same [lastMessage] again and so cannot throw. *)
Definition step (s : ProviderState) (e : Event) : Outcome :=
  let s1 := handle e s in
  match render s1 with
  | inr err => Crashed err
  | inl _ => Running (if delivers e s then messageEffect s1 else s1)
  end.

Fixpoint run (s : ProviderState) (events : list Event) : Outcome :=
  match events with
  | [] => Running s
  | e :: rest =>
      match step s e with
      | Running s' => run s' rest
      | Crashed err => Crashed err
      end
  end.

(** The provider after its first render and its mount effect ("Check user
    role on mount"), given what [localStorage.getItem("token")] returns. *)
Definition mount (token : option string) : ProviderState :=
  let '(role, logged) := read_role token in
  let s := emit logged initial in
  match role with
  | Some role => hook_connect (setUserRole role s)
  | None => s
  end.

(** The connection attempts made so far. *)
Definition attempts (s : ProviderState) : nat :=
  length (List.filter (λ o, match o with ConnectAttempt _ => true | _ => false end)
            (outputs s)).



End WebSocketProvider.

(** ** Sample session *)

(** Tokens whose middle segment decodes to [{"role":"buyer"}] and to
    [{"role":"supplier"}]. *)
Definition buyer_token : string :=
  "eyJhbGciOiJIUzI1NiJ9.eyJyb2xlIjoiYnV5ZXIifQ.c2ln".

Definition supplier_token : string :=
  "eyJhbGciOiJIUzI1NiJ9.eyJyb2xlIjoic3VwcGxpZXIifQ.c2ln".

(** The malformed frame of the spec's scenario. *)
Definition malformed_frame : string := "{not json".





(** A buyer's provider once the handshake has completed. *)
Definition connected_buyer : ProviderState :=
  handle SocketOpen (mount Json.atob Json.parse (Some buyer_token)).

(** ** Specification-side notions for the cart *)

(** The spec's sum "over all lines of unitPrice x quantity". *)
Definition line_amount (item : CartItem.t) : Z :=
  (CartItem.price item * CartItem.quantity item)%Z.

Definition sum_of_lines (lines : list CartItem.t) : Z :=
  foldr Z.add 0%Z (line_amount <$> lines).

(** One call of the spec's [addOrMerge]: what the successful branch of
    [addToCart] passes to the cart update. *)
Record AddRequest := {
  req_productId : string;
  req_product : Product.t;
  req_optionId : string;
  req_option : ProductOption.t;
  req_quantity : Z }.

Definition add (c : list CartItem.t) (r : AddRequest) : list CartItem.t :=
  addOrMerge c (req_productId r) (req_product r) (req_optionId r) (req_option r)
    (req_quantity r).

Definition add_all (c : list CartItem.t) (rs : list AddRequest) : list CartItem.t :=
  fold_left add rs c.

(** The requests, and the cart lines, of one (productId, optionId) pair. *)
Definition same_pair (pid oid : string) (r : AddRequest) : bool :=
  bool_decide (req_productId r = pid) && bool_decide (req_optionId r = oid).

Definition requests_for (pid oid : string) (rs : list AddRequest) : list AddRequest :=
  List.filter (same_pair pid oid) rs.

Definition lines_for (pid oid : string) (c : list CartItem.t) : list CartItem.t :=
  List.filter (CartItem.is_line pid oid) c.

Definition added_quantity (rs : list AddRequest) : Z :=
  foldr Z.add 0%Z (req_quantity <$> rs).

(** The cart update written by recursion on the cart: bump the first line
    of the pair, or append [fresh] when the end is reached. *)
Fixpoint upsert (pid oid : string) (n : Z) (fresh : CartItem.t) (c : list CartItem.t)
    : list CartItem.t :=
  match c with
  | [] => [fresh]
  | x :: c' =>
      if CartItem.is_line pid oid x then CartItem.add_quantity n x :: c'
      else x :: upsert pid oid n fresh c'
  end.

(** The spec's closed interval for a chosen quantity. *)
Definition in_range (q : Z) (selectedOption : ProductOption.t) : Prop :=
  (1 ≤ q ≤ ProductOption.quantity selectedOption)%Z.

(** What the buyer can do on the page between two catalogue fetches. *)
Inductive Action :=
| Select (productId optionId : string)
| SetQuantity (productId : string) (quantity : Z)
| Add (productId : string)
| Remove (index : Z).

Definition perform (s : PageState) (a : Action) : PageState :=
  match a with
  | Select productId optionId => handleOptionSelect productId optionId s
  | SetQuantity productId quantity => handleQuantityChange productId quantity s
  | Add productId => (addToCart productId s).1
  | Remove index => removeFromCart index s
  end.

(** Every stored quantity of a product with a resolved selection lies in
    the interval of that selection. *)
Definition quantities_in_range (s : PageState) : Prop :=
  ∀ productId selectedOption,
    selected_option productId s = Some selectedOption →
    ∃ q, quantities s !! productId = Some q ∧ in_range q selectedOption.

(** No option of the catalogue is offered with a ceiling below one. *)
Definition ceilings_positive (ps : list Product.t) : Prop :=
  Forall (λ p, Forall (λ o, (1 ≤ ProductOption.quantity o)%Z) (Product.options p)) ps.

(** ** Sample data *)

Definition optA : ProductOption.t :=
  ProductOption.mk "optA" "A" "Black" 1000 5.

Definition optB : ProductOption.t :=
  ProductOption.mk "optB" "B" "White" 1200 3.

Definition sold_out : ProductOption.t :=
  ProductOption.mk "optC" "C" "Red" 900 0.

Definition p1 : Product.t :=
  Product.mk "p1" "PH-1" "Phone" "/phone.png" [optA; optB].

Definition p2 : Product.t :=
  Product.mk "p2" "KB-1" "Keyboard" "/keyboard.png"
    [ProductOption.mk "optK" "K" "ANSI" 300 10].

(** The same product after a re-fetch that lowered the ceiling of [optA]. *)
Definition p1_restocked : Product.t :=
  Product.mk "p1" "PH-1" "Phone" "/phone.png"
    [ProductOption.mk "optA" "A" "Black" 1000 2; optB].

(** A product whose only option is sold out. *)
Definition p3 : Product.t :=
  Product.mk "p3" "SP-1" "Speaker" "/speaker.png" [sold_out].

(** The page after the first fetch: nothing chosen, nothing in the cart. *)
Definition fresh_page : PageState :=
  {| products := [p1; p2]; cart := []; selectedOptions := ∅; quantities := ∅ |}.

Definition page_with_sold_out : PageState :=
  setProducts [p1; p2; p3] fresh_page.

(** The unit price the added quantity is charged at: the snapshot of the
    line already in the cart, or the option's price for a new line. *)
Definition unit_price (pid oid : string) (selectedOption : ProductOption.t)
    (c : list CartItem.t) : Z :=
  match List.find (CartItem.is_line pid oid) c with
  | Some item => CartItem.price item
  | None => ProductOption.price selectedOption
  end.

(** A provider that is not subscribed and never was: the role gate is
    closed, there is no socket, no attempt was made and no frame seen. *)
Definition idle (s : ProviderState) : Prop :=
  connect s = false ∧ readyState s = Disconnected ∧ attempts s = 0%nat
  ∧ lastMessage s = None.

(** The cart invariant of the spec: at most one line per (productId,
    optionId) pair. *)
Definition one_line_per_pair (c : list CartItem.t) : Prop :=
  ∀ pid oid, (length (lines_for pid oid c) ≤ 1)%nat.

(** The request a successful [addToCart] makes of the cart. *)
Definition request_of (productId : string) (product : Product.t)
    (selectedOption : ProductOption.t) (s : PageState) : AddRequest :=
  {| req_productId := productId; req_product := product;
     req_optionId := ProductOption.id selectedOption; req_option := selectedOption;
     req_quantity := quantity_or_1 (quantities s !! productId) |}.

(** ** Marketplace page: the rest of the component *)

(** [n.toString()] for an integer. *)
Definition toString (n : Z) : string := NilZero.string_of_int (Z.to_int n).

Record PaginationInfo := {
  currentPage : Z;
  totalPages : Z;
  totalItems : Z;
  itemsPerPage : Z }.

(** All the [useState] cells of [MarketplacePage]: the four of [PageState]
    and the ones the catalogue fetch and the order submission use. *)
Record MarketplaceState := {
  shop : PageState;
  pagination : PaginationInfo;
  searchTerm : string;
  productFilter : string;
  isLoading : bool;
  isCreatingOrder : bool }.

Definition with_shop (f : PageState → PageState) (m : MarketplaceState) : MarketplaceState :=
  {| shop := f (shop m); pagination := pagination m; searchTerm := searchTerm m;
     productFilter := productFilter m; isLoading := isLoading m;
     isCreatingOrder := isCreatingOrder m |}.

Definition setPagination (f : PaginationInfo → PaginationInfo) (m : MarketplaceState)
    : MarketplaceState :=
  {| shop := shop m; pagination := f (pagination m); searchTerm := searchTerm m;
     productFilter := productFilter m; isLoading := isLoading m;
     isCreatingOrder := isCreatingOrder m |}.

Definition setSearchTerm (v : string) (m : MarketplaceState) : MarketplaceState :=
  {| shop := shop m; pagination := pagination m; searchTerm := v;
     productFilter := productFilter m; isLoading := isLoading m;
     isCreatingOrder := isCreatingOrder m |}.

Definition setProductFilter (v : string) (m : MarketplaceState) : MarketplaceState :=
  {| shop := shop m; pagination := pagination m; searchTerm := searchTerm m;
     productFilter := v; isLoading := isLoading m;
     isCreatingOrder := isCreatingOrder m |}.

Definition setIsLoading (b : bool) (m : MarketplaceState) : MarketplaceState :=
  {| shop := shop m; pagination := pagination m; searchTerm := searchTerm m;
     productFilter := productFilter m; isLoading := b;
     isCreatingOrder := isCreatingOrder m |}.

Definition setIsCreatingOrder (b : bool) (m : MarketplaceState) : MarketplaceState :=
  {| shop := shop m; pagination := pagination m; searchTerm := searchTerm m;
     productFilter := productFilter m; isLoading := isLoading m;
     isCreatingOrder := b |}.

(** [(prev) => ({ ...prev, currentPage: n })] *)
Definition with_currentPage (n : Z) (prev : PaginationInfo) : PaginationInfo :=
  {| currentPage := n; totalPages := totalPages prev; totalItems := totalItems prev;
     itemsPerPage := itemsPerPage prev |}.

(** [handlePageChange] *)
Definition handlePageChange (newPage : Z) (m : MarketplaceState) : MarketplaceState :=
  setPagination (with_currentPage newPage) m.

(** [handleSearch] *)
Definition handleSearch (value : string) (m : MarketplaceState) : MarketplaceState :=
  setPagination (with_currentPage 1) (setSearchTerm value m).

(** [handleProductFilterChange] *)
Definition handleProductFilterChange (value : string) (m : MarketplaceState)
    : MarketplaceState :=
  setPagination (with_currentPage 1)
    (setProductFilter (if bool_decide (value = "all") then EmptyString else value) m).

(** [handleReset] *)
Definition handleReset (m : MarketplaceState) : MarketplaceState :=
  setPagination (with_currentPage 1)
    (setProductFilter EmptyString (setSearchTerm EmptyString m)).

(** The object handed to [new URLSearchParams] in [fetchProducts], as its
    entries in order: [...(searchTerm && { search: searchTerm })] spreads
    nothing for the empty string. *)
Definition queryParams (m : MarketplaceState) : list (string * string) :=
  [("page", toString (currentPage (pagination m))); ("limit", "12")]
  ++ (if bool_decide (searchTerm m = EmptyString) then []
      else [("search", searchTerm m)])
  ++ (if bool_decide (productFilter m = EmptyString) then []
      else [("category", productFilter m)]).

(** How the [GET /product] request of [fetchProducts] ends. *)
Inductive ProductsResponse :=
| ProductsOk (items : option (list Product.t)) (limit page pages total : Z)
| ProductsNotOk                 (* a response with [ok] false *)
| ProductsFailed.               (* [fetch] or [response.json()] threw *)

Definition fetch_error_toast : Toast :=
  {| title := "Error"; description := "Failed to fetch products"; destructive := true |}.

Definition server_error_toast : Toast :=
  {| title := "Error"; description := "Failed to connect to server";
     destructive := true |}.

(** [fetchProducts], from [setIsLoading(true)] to the [finally]: the state
    once the request has ended as [response] says, and the toasts raised. *)
Definition fetchProducts (response : ProductsResponse) (m : MarketplaceState)
    : MarketplaceState * list Toast :=
  let m1 := setIsLoading true m in
  let '(m2, toasts) :=
    match response with
    | ProductsOk items limit page pages total =>
        (setPagination
           (λ _, {| currentPage := page; totalPages := pages; totalItems := total;
                    itemsPerPage := limit |})
           (with_shop (setProducts (default [] items)) m1),
         [])
    | ProductsNotOk => (m1, [fetch_error_toast])
    | ProductsFailed => (m1, [server_error_toast])
    end in
  (setIsLoading false m2, toasts).

(** One entry of the [items] array posted by [handleCreateOrder]. *)
Record OrderItem := {
  product_id : string;
  product_option_id : string;
  order_quantity : Z;
  currency : string }.

(** [cart.map(item => ({ product_id, product_option_id, quantity,
    currency: "JPY" }))] *)
Definition orderItems (c : list CartItem.t) : list OrderItem :=
  map (λ item, {| product_id := CartItem.productId item;
                  product_option_id := CartItem.optionId item;
                  order_quantity := CartItem.quantity item;
                  currency := "JPY" |}) c.

(** How the [POST /purchase-order] request ends. *)
Inductive OrderResponse :=
| OrderCreated (id : string)                (* [ok]; [id] is [data.id] as text *)
| OrderRejected (message : option string)   (* not [ok]; [errorData.message] *)
| OrderFailed.                              (* [fetch] or [response.json()] threw *)

(** What one call of [handleCreateOrder] did. *)
Record OrderRun := {
  sent : option (list OrderItem);           (* the body of the request, if made *)
  raised : list Toast;
  pushed : option string;                   (* the argument of [router.push] *)
  after : MarketplaceState }.

Definition order_created_toast : Toast :=
  {| title := "Success"; description := "Order created successfully";
     destructive := false |}.

(** [errorData.message || "Failed to create order"] *)
Definition order_rejected_toast (message : option string) : Toast :=
  {| title := "Error";
     description :=
       match message with
       | Some text => if bool_decide (text = EmptyString) then "Failed to create order"
                      else text
       | None => "Failed to create order"
       end;
     destructive := true |}.

(** [handleCreateOrder] *)
Definition handleCreateOrder (response : OrderResponse) (m : MarketplaceState) : OrderRun :=
  match cart (shop m) with
  | [] => {| sent := None; raised := []; pushed := None; after := m |}
  | _ :: _ =>
      let m1 := setIsCreatingOrder true m in
      let orderItems := orderItems (cart (shop m)) in
      let '(toast, route) :=
        match response with
        | OrderCreated id =>
            (order_created_toast, Some ("/buyer/orders/" ++ id)%string)
        | OrderRejected message => (order_rejected_toast message, None)
        | OrderFailed => (server_error_toast, None)
        end in
      {| sent := Some orderItems; raised := [toast]; pushed := route;
         after := setIsCreatingOrder false m1 |}
  end.

(** The window of page buttons:
    [Array.from({ length: Math.min(5, totalPages) }, (_, i) => ...)], with
    [None] for the [null] an entry past the last page renders as. *)
Definition pageButtons (p : PaginationInfo) : list (option Z) :=
  (λ i,
     if (totalPages p <=? 5)%Z then Some (i + 1)%Z
     else
       let start := Z.max 1 (currentPage p - 2) in
       let pageNum := (start + i)%Z in
       if (totalPages p <? pageNum)%Z then None else Some pageNum)
  <$> seqZ 0 (Z.min 5 (totalPages p)).

(** A click in the pagination bar, which is rendered only when
    [totalPages > 1]; [Previous] is disabled on the first page and [Next]
    on the last, and a page button exists only for a page of the window. *)
Inductive PageClick := Previous | Next | PageNumber (n : Z).

Definition clickPage (c : PageClick) (m : MarketplaceState) : MarketplaceState :=
  let p := pagination m in
  if (1 <? totalPages p)%Z then
    match c with
    | Previous =>
        if (currentPage p <=? 1)%Z then m else handlePageChange (currentPage p - 1) m
    | Next =>
        if (totalPages p <=? currentPage p)%Z then m
        else handlePageChange (currentPage p + 1) m
    | PageNumber n =>
        if bool_decide (Some n ∈ pageButtons p) then handlePageChange n m else m
    end
  else m.

(** "Showing [first] to [last] of [totalItems] products". *)
Definition showing (p : PaginationInfo) : Z * Z :=
  (((currentPage p - 1) * itemsPerPage p + 1)%Z,
   Z.min (currentPage p * itemsPerPage p) (totalItems p)).

(** The quantity controls of a product card.  The minus button carries
    [disabled={!quantities[product.id] || quantities[product.id] <= 1}];
    the number field sends [Number.parseInt(e.target.value) || 1], where
    [parsed] is what [parseInt] returned ([None] for [NaN]).  The controls
    exist only where the [Add] button does. *)
Inductive QuantityControl := Minus | Plus | Typed (parsed : option Z).

Definition minus_disabled (q : option Z) : bool :=
  match q with
  | None => true
  | Some q => (q =? 0)%Z || (q <=? 1)%Z
  end.

Definition useQuantityControl (c : QuantityControl) (product : Product.t) (s : PageState)
    : PageState :=
  let productId := Product.id product in
  let stored := quantities s !! productId in
  if add_button_rendered product s then
    match c with
    | Minus =>
        if minus_disabled stored then s
        else handleQuantityChange productId (quantity_or_1 stored - 1) s
    | Plus => handleQuantityChange productId (quantity_or_1 stored + 1) s
    | Typed parsed => handleQuantityChange productId (quantity_or_1 parsed) s
    end
  else s.

(** What stays of a cart line whatever is added later: everything but the
    quantity. *)
Definition snapshot (item : CartItem.t) : CartItem.t :=
  CartItem.mk (CartItem.productId item) (CartItem.productName item)
    (CartItem.productCode item) (CartItem.optionId item) (CartItem.optionName item)
    (CartItem.price item) 0 (CartItem.maxQuantity item).

(** The initial values of the [useState] cells of [MarketplacePage]. *)
Definition initial_marketplace : MarketplaceState :=
  {| shop := {| products := []; cart := []; selectedOptions := ∅; quantities := ∅ |};
     pagination := {| currentPage := 1; totalPages := 1; totalItems := 0;
                      itemsPerPage := 12 |};
     searchTerm := EmptyString; productFilter := EmptyString;
     isLoading := true; isCreatingOrder := false |}.

(** A marketplace showing page 4 of 9, with one line in the cart. *)
Definition browsing_marketplace : MarketplaceState :=
  {| shop := (addToCart "p1" (handleOptionSelect "p1" "optA" fresh_page)).1;
     pagination := {| currentPage := 4; totalPages := 9; totalItems := 100;
                      itemsPerPage := 12 |};
     searchTerm := "phone"; productFilter := "tv";
     isLoading := false; isCreatingOrder := false |}.

(** ** Page guards and the rest of the provider *)

Section Guards.

Context (atob : string → option string).
Context (JSON_parse : string → option Json.value).

(** The check at the head of a page's effect ("Check authentication",
    "Parse token to check role"): [true] when the effect goes on, [false]
    when it calls [router.push("/")] and returns.  The pages differ only in
    the role they [required]. *)
Definition role_guard (required : string) (token : option string) : bool :=
  match token with
  | None => false
  | Some token =>
      if bool_decide (token = EmptyString) then false
      else
        let segment := default "undefined" (split_on "." token !! 1%nat) in
        match atob segment with
        | None => false
        | Some decoded =>
            match JSON_parse decoded with
            | None => false
            | Some tokenPayload =>
                match Json.get "role" tokenPayload with
                | None => false
                | Some role => Json.is_string required role
                end
            end
        end
  end.

(** What the effect of a page does next. *)
Inductive PageEffect :=
| RouterPush (path : string)
| FetchProducts
| Nothing.

(** The effect of [MarketplacePage]. *)
Definition marketplace_effect (token : option string) : PageEffect :=
  if role_guard "buyer" token then FetchProducts else RouterPush "/".

(** The effect of [NewProductPage]. *)
Definition new_product_effect (token : option string) : PageEffect :=
  if role_guard "supplier" token then Nothing else RouterPush "/".

(** The payload of a frame that the message effect takes as an
    [order_updated] event. *)
Definition order_updated (data : string) : option Json.value :=
  match JSON_parse data with
  | Some message =>
      match Json.get "event" message, Json.get "data" message with
      | Some event, Some payload =>
          if Json.is_string "order_updated" event && Json.truthy payload
          then payload else None
      | _, _ => None
      end
  | None => None
  end.

(** Every frame the provider still holds parsed when it arrived. *)
Definition parsed_history (s : ProviderState) : Prop :=
  ∀ data, lastMessage s = Some data → is_Some (JSON_parse data).

End Guards.

(** A token with no "." in it. *)
Definition no_dot (token : string) : bool :=
  forallb (λ c, negb (Ascii.eqb c ".")) (list_ascii_of_string token).

(** ** New product page: the option list *)

(** The [field] and [value] of an [updateOption] call. *)
Inductive OptionEdit :=
| EditId (value : string)
| EditCode (value : string)
| EditName (value : string)
| EditPrice (value : Z)
| EditQuantity (value : Z).

(** [{ ...option, [field]: value }] *)
Definition edit (e : OptionEdit) (option : ProductOption.t) : ProductOption.t :=
  match e with
  | EditId v =>
      ProductOption.mk v (ProductOption.code option) (ProductOption.name option)
        (ProductOption.price option) (ProductOption.quantity option)
  | EditCode v =>
      ProductOption.mk (ProductOption.id option) v (ProductOption.name option)
        (ProductOption.price option) (ProductOption.quantity option)
  | EditName v =>
      ProductOption.mk (ProductOption.id option) (ProductOption.code option) v
        (ProductOption.price option) (ProductOption.quantity option)
  | EditPrice v =>
      ProductOption.mk (ProductOption.id option) (ProductOption.code option)
        (ProductOption.name option) v (ProductOption.quantity option)
  | EditQuantity v =>
      ProductOption.mk (ProductOption.id option) (ProductOption.code option)
        (ProductOption.name option) (ProductOption.price option) v
  end.

(** Whether two edits write the same field. *)
Definition same_field (e1 e2 : OptionEdit) : bool :=
  match e1, e2 with
  | EditId _, EditId _ | EditCode _, EditCode _ | EditName _, EditName _
  | EditPrice _, EditPrice _ | EditQuantity _, EditQuantity _ => true
  | _, _ => false
  end.

(** [addOption], at the time [Date.now()] returns [date_now]. *)
Definition addOption (date_now : Z) (options : list ProductOption.t)
    : list ProductOption.t :=
  let newOption :=
    ProductOption.mk (toString date_now) EmptyString EmptyString 0 0 in
  options ++ [newOption].

(** [updateOption] *)
Definition updateOption (id : string) (e : OptionEdit) (options : list ProductOption.t)
    : list ProductOption.t :=
  map (λ option, if bool_decide (ProductOption.id option = id) then edit e option
                 else option) options.

(** [removeOption] *)
Definition removeOption (id : string) (options : list ProductOption.t)
    : list ProductOption.t :=
  List.filter (λ option, negb (bool_decide (ProductOption.id option = id))) options.

(** More frames: an order update, an event the provider does not know, and
    an event without payload. *)
Definition order_frame : string :=
  Json.text "{'event':'order_updated','data':{'id':'o1','order_number':'PO-1','status':'Accepted'}}".

Definition order : Json.value :=
  Json.JObject
    [("id", Json.JString "o1"); ("order_number", Json.JString "PO-1");
     ("status", Json.JString "Accepted")].

Definition price_frame : string :=
  Json.text "{'event':'price_changed','data':{'id':'p7'}}".

Definition empty_product_frame : string :=
  Json.text "{'event':'product_created','message':'no data'}".

(** * Properties *)

(** ** Arrays *)

Lemma findIndex_from_shift {A : Type} (f : A → bool) (l : list A) (i : Z) :
  findIndex_from i f l =
    if (0 <=? findIndex f l)%Z then (i + findIndex f l)%Z else (-1)%Z.
Proof.
  unfold findIndex. revert i.
  induction l as [|x l IH]; intros i; simpl; [done|].
  destruct (f x); simpl.
  - f_equal. lia.
  - rewrite (IH (i + 1)%Z), (IH (0 + 1)%Z).
    destruct (0 <=? findIndex_from 0 f l)%Z eqn:E.
    + apply Z.leb_le in E.
      replace (0 <=? 0 + 1 + findIndex_from 0 f l)%Z with true
        by (symmetry; apply Z.leb_le; lia).
      lia.
    + done.
Qed.

Lemma findIndex_cons {A : Type} (f : A → bool) (x : A) (l : list A) :
  findIndex f (x :: l) =
    if f x then 0%Z
    else if (0 <=? findIndex f l)%Z then (1 + findIndex f l)%Z else (-1)%Z.
Proof.
  unfold findIndex at 1. simpl. destruct (f x); [done|].
  apply findIndex_from_shift.
Qed.

Lemma findIndex_bounds {A : Type} (f : A → bool) (l : list A) :
  (-1 ≤ findIndex f l < Z.of_nat (length l))%Z.
Proof.
  induction l as [|x l IH]; [unfold findIndex; simpl; lia|].
  rewrite findIndex_cons. simpl length.
  destruct (f x); [lia|].
  destruct (0 <=? findIndex f l)%Z eqn:E; [apply Z.leb_le in E|]; lia.
Qed.

Lemma filter_from_keep_all {A : Type} (l : list A) (i index : Z) :
  (index < i ∨ i + Z.of_nat (length l) ≤ index)%Z →
  filter_from i (λ _ j, negb (j =? index)%Z) l = l.
Proof.
  revert i. induction l as [|x l IH]; intros i Hout; simpl; [done|].
  simpl length in Hout.
  destruct (i =? index)%Z eqn:E; [apply Z.eqb_eq in E; lia|].
  simpl. f_equal. apply IH. lia.
Qed.

Lemma filter_from_drop_one {A : Type} (l : list A) (i index : Z) :
  (i ≤ index < i + Z.of_nat (length l))%Z →
  filter_from i (λ _ j, negb (j =? index)%Z) l =
    take (Z.to_nat (index - i)) l ++ drop (S (Z.to_nat (index - i))) l.
Proof.
  revert i. induction l as [|x l IH]; intros i Hin; simpl length in Hin; [lia|].
  simpl filter_from.
  destruct (i =? index)%Z eqn:E.
  - apply Z.eqb_eq in E. subst index. simpl.
    replace (Z.to_nat (i - i)) with 0%nat by lia. simpl.
    apply filter_from_keep_all. lia.
  - apply Z.eqb_neq in E. simpl.
    replace (Z.to_nat (index - i)) with (S (Z.to_nat (index - (i + 1)))) by lia.
    simpl. f_equal. apply IH. lia.
Qed.

(** ** Cart store *)

Lemma setCart_same (s : PageState) : setCart (cart s) s = s.
Proof. by destruct s. Qed.

Lemma reduce_total (lines : list CartItem.t) (acc : Z) :
  reduce (λ total item, (total + CartItem.price item * CartItem.quantity item)%Z)
    acc lines = (acc + sum_of_lines lines)%Z.
Proof.
  unfold reduce, sum_of_lines. revert acc.
  induction lines as [|x lines IH]; intros acc.
  - cbn [fold_left fmap list_fmap foldr]. lia.
  - cbn [fold_left fmap list_fmap foldr]. rewrite IH. unfold line_amount. lia.
Qed.

Lemma sum_of_lines_app (l1 l2 : list CartItem.t) :
  sum_of_lines (l1 ++ l2) = (sum_of_lines l1 + sum_of_lines l2)%Z.
Proof.
  unfold sum_of_lines. induction l1 as [|x l1 IH].
  - cbn [app fmap list_fmap foldr]. lia.
  - cbn [app fmap list_fmap foldr]. rewrite IH. lia.
Qed.

(** C6.  [getTotalAmount] returns the sum over the current cart lines of
    price times quantity, and leaves the page state as it found it. *)
Theorem getTotalAmount_sum (s : PageState) :
  getTotalAmount s = (sum_of_lines (cart s), s).
Proof.
  unfold getTotalAmount. f_equal. by rewrite reduce_total.
Qed.

(** C7.  [removeFromCart] with an index outside the cart (in particular on
    an empty cart) leaves the page state, hence the cart and its length,
    unchanged; with an index inside it removes the line at that index and
    keeps the others in their order, touching nothing but the cart. *)
Theorem removeFromCart_spec (s : PageState) (index : Z) :
  ((index < 0 ∨ Z.of_nat (length (cart s)) ≤ index)%Z →
     removeFromCart index s = s) ∧
  ((0 ≤ index < Z.of_nat (length (cart s)))%Z →
     removeFromCart index s =
       setCart (take (Z.to_nat index) (cart s) ++ drop (S (Z.to_nat index)) (cart s)) s
     ∧ S (length (cart (removeFromCart index s))) = length (cart s)
     ∧ ∀ i : nat,
         cart (removeFromCart index s) !! i =
           if decide (i < Z.to_nat index)%nat then cart s !! i else cart s !! S i).
Proof.
  unfold removeFromCart, filter_indexed. split.
  - intros Hout. rewrite filter_from_keep_all by lia. apply setCart_same.
  - intros Hin. rewrite filter_from_drop_one by lia.
    replace (index - 0)%Z with index by lia.
    split; [done|]. simpl. split.
    + rewrite length_app, length_take, length_drop. lia.
    + intros i. case_decide as Hi.
      * rewrite lookup_app_l by (rewrite length_take; lia).
        by rewrite lookup_take_lt.
      * rewrite lookup_app_r by (rewrite length_take; lia).
        rewrite length_take, lookup_drop. f_equal. lia.
Qed.

Lemma removeFromCart_spec_witness :
  let a := newItem "p1" p1 "optA" optA 2 in
  let b := newItem "p1" p1 "optB" optB 1 in
  let c := newItem "p2" p2 "optA" optA 4 in
  let s := setCart [a; b; c] fresh_page in
  removeFromCart 0 fresh_page = fresh_page
  ∧ removeFromCart 3 s = s
  ∧ removeFromCart (-1) s = s
  ∧ removeFromCart 1 s = setCart [a; c] s.
Proof.
  intros a b c s.
  split; [apply (proj1 (removeFromCart_spec fresh_page 0));
          cbn [fresh_page cart length]; lia|].
  split; [apply (proj1 (removeFromCart_spec s 3)); cbn [s setCart cart length]; lia|].
  split; [apply (proj1 (removeFromCart_spec s (-1))); lia|].
  apply (proj2 (removeFromCart_spec s 1)). cbn [s setCart cart length]. lia.
Defined.

(** ** Catalog selection *)

Lemma find_option_in (product : Product.t) (sid : option string) (o : ProductOption.t) :
  find_option (Some product) sid = Some o →
  o ∈ Product.options product ∧ sid = Some (ProductOption.id o).
Proof.
  unfold find_option. intros H.
  destruct (find_some _ _ H) as [Hin Hid].
  apply bool_decide_eq_true in Hid.
  split; [by apply list_elem_of_In | done].
Qed.

Lemma find_product_in (productId : string) (ps : list Product.t) (p : Product.t) :
  find_product productId ps = Some p → p ∈ ps ∧ Product.id p = productId.
Proof.
  unfold find_product. intros H.
  destruct (find_some _ _ H) as [Hin Hid].
  apply bool_decide_eq_true in Hid.
  split; [by apply list_elem_of_In | done].
Qed.

Lemma find_option_empty_id (product : Product.t) :
  (∀ o, o ∈ Product.options product → ProductOption.id o ≠ EmptyString) →
  find_option (Some product) (Some EmptyString) = None.
Proof.
  intros Hne. unfold find_option.
  destruct (find _ _) as [o|] eqn:E; [|done].
  destruct (find_option_in product (Some EmptyString) o E) as [Hin Hid].
  exfalso. apply (Hne o Hin). congruence.
Qed.

Lemma selected_option_inv (productId : string) (s : PageState) (o : ProductOption.t) :
  selected_option productId s = Some o →
  ∃ product,
    find_product productId (products s) = Some product ∧
    selectedOptions s !! productId = Some (ProductOption.id o) ∧
    find_option (Some product) (Some (ProductOption.id o)) = Some o.
Proof.
  unfold selected_option. intros H.
  destruct (find_product productId (products s)) as [product|] eqn:Ep; [|done].
  destruct (find_option_in _ _ _ H) as [_ Hsid].
  exists product. rewrite Hsid in H. done.
Qed.

(** What a successful [addToCart] leaves behind. *)
Lemma addToCart_success (productId : string) (s : PageState)
    (product : Product.t) (o : ProductOption.t) :
  find_product productId (products s) = Some product →
  selected_option productId s = Some o →
  addToCart productId s =
    (setQuantities (λ prev, <[productId := 1%Z]> prev)
       (setSelectedOptions (λ prev, <[productId := EmptyString]> prev)
          (setCart (addOrMerge (cart s) productId product (ProductOption.id o) o
                      (quantity_or_1 (quantities s !! productId))) s)),
     [added_toast product o]).
Proof.
  intros Hp Ho.
  destruct (selected_option_inv _ _ _ Ho) as (product' & Hp' & Hsid & Hfo).
  assert (product' = product) as -> by congruence.
  unfold addToCart. rewrite Hp, Hsid, Hfo. done.
Qed.

(** C10.  When [addToCart] is called for a product id that is not in the
    catalogue, or for which nothing was ever selected, or whose selection
    names no option of the product, it raises the "Please select a product
    option" error and returns the page state untouched: no line added, no
    quantity modified. *)
Theorem addToCart_without_selection (s : PageState) (productId : string) :
  find_product productId (products s) = None
  ∨ selectedOptions s !! productId = None
  ∨ selected_option productId s = None →
  addToCart productId s = (s, [select_option_toast]).
Proof.
  unfold addToCart, selected_option.
  intros [H | [H | H]].
  - by rewrite H.
  - rewrite H. by destruct (find_product productId (products s)).
  - rewrite H. destruct (find_product productId (products s)); [|done].
    by destruct (selectedOptions s !! productId).
Qed.

Lemma addToCart_without_selection_witness :
  addToCart "p1" fresh_page = (fresh_page, [select_option_toast])
  ∧ addToCart "p9" (handleOptionSelect "p9" "optA" fresh_page)
    = (handleOptionSelect "p9" "optA" fresh_page, [select_option_toast]).
Proof.
  split.
  - apply (addToCart_without_selection fresh_page "p1").
    right; left. reflexivity.
  - apply (addToCart_without_selection (handleOptionSelect "p9" "optA" fresh_page) "p9").
    left. reflexivity.
Defined.

(** A cleared selection (the empty string) is no selection either, as long
    as no option of the product carries the empty id. *)
Lemma addToCart_cleared_selection (s : PageState) (productId : string)
    (product : Product.t) :
  find_product productId (products s) = Some product →
  (∀ o, o ∈ Product.options product → ProductOption.id o ≠ EmptyString) →
  selectedOptions s !! productId = Some EmptyString →
  addToCart productId s = (s, [select_option_toast]).
Proof.
  intros Hp Hne Hsel. apply addToCart_without_selection.
  right; right. unfold selected_option. rewrite Hp, Hsel.
  by apply find_option_empty_id.
Qed.

(** C9.  [handleOptionSelect] stores the chosen option for the product and
    puts its quantity back to 1, leaving the cart, the catalogue and the
    other products' selections alone.  A successful [addToCart] empties the
    product's chosen option and puts its quantity back to 1; after it the
    [Add] button of that product is not rendered, and calling [addToCart]
    again without a new selection is refused (given that no option of the
    product has the empty id), so one selection seeds one insertion. *)
Theorem selection_set_and_cleared (s : PageState) (productId optionId : string) :
  (let s' := handleOptionSelect productId optionId s in
   selectedOptions s' !! productId = Some optionId
   ∧ quantities s' !! productId = Some 1%Z
   ∧ cart s' = cart s ∧ products s' = products s
   ∧ ∀ other, other ≠ productId →
       selectedOptions s' !! other = selectedOptions s !! other
       ∧ quantities s' !! other = quantities s !! other)
  ∧ (∀ product o,
       find_product productId (products s) = Some product →
       selected_option productId s = Some o →
       let s' := (addToCart productId s).1 in
       (addToCart productId s).2 = [added_toast product o]
       ∧ selectedOptions s' !! productId = Some EmptyString
       ∧ quantities s' !! productId = Some 1%Z
       ∧ (∀ p, Product.id p = productId → add_button_rendered p s' = false)
       ∧ ((∀ o', o' ∈ Product.options product → ProductOption.id o' ≠ EmptyString) →
          addToCart productId s' = (s', [select_option_toast]))).
Proof.
  split.
  - simpl. rewrite !lookup_insert_eq. repeat split; try done.
    all: by rewrite lookup_insert_ne.
  - intros product o Hp Ho. rewrite (addToCart_success _ _ _ _ Hp Ho). simpl.
    rewrite !lookup_insert_eq. repeat split; try done.
    + intros p Hid. unfold add_button_rendered. simpl. rewrite Hid.
      rewrite lookup_insert_eq. by destruct (Product.options p).
    + intros Hne. apply (addToCart_cleared_selection _ _ product); simpl; try done.
      apply lookup_insert_eq.
Qed.

Lemma selection_set_and_cleared_witness :
  let s := handleOptionSelect "p1" "optA" fresh_page in
  let s' := (addToCart "p1" s).1 in
  cart s' = [newItem "p1" p1 "optA" optA 1]
  ∧ selectedOptions s' !! "p1" = Some EmptyString
  ∧ quantities s' !! "p1" = Some 1%Z
  ∧ add_button_rendered p1 s' = false
  ∧ addToCart "p1" s' = (s', [select_option_toast]).
Proof.
  intros s s'.
  destruct (selection_set_and_cleared s "p1" "optA") as [_ H].
  destruct (H p1 optA eq_refl eq_refl) as (_ & Hsel & Hq & Hbtn & Hagain).
  split; [reflexivity|].
  split; [exact Hsel|]. split; [exact Hq|].
  split; [exact (Hbtn p1 eq_refl)|].
  apply Hagain. intros o' Ho'.
  apply list_elem_of_In in Ho'. simpl in Ho'.
  destruct Ho' as [<- | [<- | []]]; discriminate.
Defined.

(** ** Quantity gate *)

Lemma handleQuantityChange_accept (s : PageState) (productId : string) (q : Z)
    (o : ProductOption.t) :
  selected_option productId s = Some o → in_range q o →
  handleQuantityChange productId q s =
    setQuantities (λ prev, <[productId := q]> prev) s.
Proof.
  unfold handleQuantityChange, in_range. intros -> [H1 H2].
  apply Z.leb_le in H1, H2. by rewrite H1, H2.
Qed.

Lemma handleQuantityChange_drop (s : PageState) (productId : string) (q : Z) :
  (∀ o, selected_option productId s = Some o → ¬ in_range q o) →
  handleQuantityChange productId q s = s.
Proof.
  unfold handleQuantityChange, in_range. intros Hout.
  destruct (selected_option productId s) as [o|]; [|done].
  destruct (q <=? ProductOption.quantity o)%Z eqn:E1; [|done].
  destruct (1 <=? q)%Z eqn:E2; [|done].
  apply Z.leb_le in E1, E2. exfalso. apply (Hout o eq_refl). lia.
Qed.

Lemma handleQuantityChange_selection (s : PageState) (productId : string) (q : Z)
    (other : string) :
  selected_option other (handleQuantityChange productId q s) = selected_option other s.
Proof.
  unfold handleQuantityChange.
  destruct (selected_option productId s); [|done].
  by destruct (_ && _).
Qed.

Lemma handleOptionSelect_selected (s : PageState) (productId optionId other : string) :
  other ≠ productId →
  selected_option other (handleOptionSelect productId optionId s) =
    selected_option other s.
Proof.
  intros Hne. unfold selected_option. simpl. by rewrite lookup_insert_ne.
Qed.

Lemma ceilings_positive_elem (ps : list Product.t) (p : Product.t) (o : ProductOption.t) :
  ceilings_positive ps → p ∈ ps → o ∈ Product.options p →
  (1 ≤ ProductOption.quantity o)%Z.
Proof.
  unfold ceilings_positive. rewrite Forall_forall. intros H Hp Ho.
  specialize (H p Hp). rewrite Forall_forall in H. by apply H.
Qed.

Lemma quantities_in_range_no_selection (s : PageState) :
  selectedOptions s = ∅ → quantities_in_range s.
Proof.
  intros Hsel p o Ho. apply selected_option_inv in Ho as (_ & _ & Hs & _).
  by rewrite Hsel in Hs.
Qed.

Lemma quantities_in_range_perform (s : PageState) (a : Action) :
  ceilings_positive (products s) →
  quantities_in_range s →
  products (perform s a) = products s ∧ quantities_in_range (perform s a).
Proof.
  intros Hpos Hinv. destruct a as [pid oid | pid q | pid | index]; simpl perform.
  - split; [done|]. intros p o Ho.
    destruct (decide (p = pid)) as [->|Hne].
    + exists 1%Z. split; [simpl; apply lookup_insert_eq|].
      destruct (selected_option_inv _ _ _ Ho) as (product & Hp & _ & Hfo).
      apply find_product_in in Hp as [Hp _]. apply find_option_in in Hfo as [Hfo _].
      simpl in Hp. pose proof (ceilings_positive_elem _ _ _ Hpos Hp Hfo). unfold in_range. lia.
    + rewrite handleOptionSelect_selected in Ho by done.
      destruct (Hinv p o Ho) as (q & Hq & Hr). exists q. split; [|done].
      simpl. by rewrite lookup_insert_ne.
  - split.
    { unfold handleQuantityChange. destruct (selected_option pid s); [|done].
      by destruct (_ && _). }
    intros p o Ho. rewrite handleQuantityChange_selection in Ho.
    destruct (Hinv p o Ho) as (q0 & Hq0 & Hr0).
    unfold handleQuantityChange.
    destruct (selected_option pid s) as [o'|] eqn:Eo'; [|by exists q0].
    destruct (q <=? ProductOption.quantity o')%Z eqn:E1; [|by exists q0].
    destruct (1 <=? q)%Z eqn:E2; [|by exists q0].
    simpl. destruct (decide (p = pid)) as [->|Hne].
    + exists q. rewrite lookup_insert_eq. split; [done|].
      assert (o' = o) as -> by congruence.
      apply Z.leb_le in E1, E2. unfold in_range. lia.
    + exists q0. by rewrite lookup_insert_ne.
  - destruct (selected_option pid s) as [o|] eqn:Eo.
    + destruct (selected_option_inv _ _ _ Eo) as (product & Hp & _ & _).
      rewrite (addToCart_success _ _ _ _ Hp Eo). simpl. split; [done|].
      intros p o' Ho'. destruct (decide (p = pid)) as [->|Hne].
      * exists 1%Z. split; [apply lookup_insert_eq|].
        destruct (selected_option_inv _ _ _ Ho') as (product' & Hp' & _ & Hfo).
        apply find_product_in in Hp' as [Hp' _]. apply find_option_in in Hfo as [Hfo _].
        simpl in Hp'. pose proof (ceilings_positive_elem _ _ _ Hpos Hp' Hfo). unfold in_range. lia.
      * unfold selected_option in Ho'. simpl in Ho'.
        rewrite lookup_insert_ne in Ho' by done.
        destruct (Hinv p o' Ho') as (q & Hq & Hr). exists q.
        simpl. by rewrite lookup_insert_ne.
    + rewrite addToCart_without_selection by auto. done.
  - split; [done|]. intros p o Ho. apply (Hinv p o Ho).
Qed.

(** C5 (as amended).  For a product whose selection resolves to an option,
    [handleQuantityChange] stores the requested quantity exactly when it
    lies in [1, maxQuantity] and otherwise returns the state as it was, with
    no toast; it never writes a quantity outside the interval; without a
    resolved selection it does nothing.  As long as every option of the
    catalogue has a ceiling of at least 1, the stored quantity of every
    product with a resolved selection stays inside the interval of that
    selection over any sequence of selections, quantity changes, adds and
    removals on that catalogue. *)
Theorem handleQuantityChange_soft_clamp :
  (∀ (s : PageState) (productId : string) (q : Z) (selectedOption : ProductOption.t),
     selected_option productId s = Some selectedOption →
     (in_range q selectedOption →
        handleQuantityChange productId q s =
          setQuantities (λ prev, <[productId := q]> prev) s)
     ∧ (¬ in_range q selectedOption → handleQuantityChange productId q s = s)
     ∧ (∀ q', quantities (handleQuantityChange productId q s) !! productId = Some q' →
          in_range q' selectedOption ∨ quantities s !! productId = Some q'))
  ∧ (∀ (s : PageState) (productId : string) (q : Z),
       selected_option productId s = None → handleQuantityChange productId q s = s)
  ∧ (∀ (s : PageState) (actions : list Action),
       ceilings_positive (products s) → quantities_in_range s →
       quantities_in_range (fold_left perform actions s)).
Proof.
  split; [|split].
  - intros s productId q selectedOption Hsel. split; [|split].
    + by apply handleQuantityChange_accept.
    + intros Hout. apply handleQuantityChange_drop. intros o Ho.
      assert (o = selectedOption) as -> by congruence. done.
    + intros q' Hq'. destruct (decide (in_range q selectedOption)) as [Hin|Hout].
      * rewrite (handleQuantityChange_accept _ _ _ _ Hsel Hin) in Hq'. simpl in Hq'.
        rewrite lookup_insert_eq in Hq'. left. congruence.
      * rewrite handleQuantityChange_drop in Hq'; [by right|].
        intros o Ho. assert (o = selectedOption) as -> by congruence. done.
  - intros s productId q Hnone. apply handleQuantityChange_drop.
    intros o Ho. congruence.
  - intros s actions. revert s.
    induction actions as [|a actions IH]; intros s Hpos Hinv; [done|].
    simpl. destruct (quantities_in_range_perform s a Hpos Hinv) as [Hps Hinv'].
    apply IH; [by rewrite Hps | done].
Qed.

Lemma handleQuantityChange_soft_clamp_witness :
  let s := handleOptionSelect "p1" "optA" fresh_page in
  handleQuantityChange "p1" 3 s = setQuantities (λ prev, <["p1" := 3%Z]> prev) s
  ∧ handleQuantityChange "p1" 6 s = s
  ∧ handleQuantityChange "p1" 0 s = s
  ∧ handleQuantityChange "p2" 2 s = s
  ∧ quantities_in_range
      (fold_left perform
         [Select "p1" "optA"; SetQuantity "p1" 4; SetQuantity "p1" 9; Add "p1";
          Select "p1" "optB"; SetQuantity "p1" 0; Add "p1"; Remove 0] fresh_page).
Proof.
  intros s.
  destruct handleQuantityChange_soft_clamp as (Hsel & Hnone & Hinv).
  destruct (Hsel s "p1" 3%Z optA eq_refl) as (H3 & _ & _).
  destruct (Hsel s "p1" 6%Z optA eq_refl) as (_ & H6 & _).
  destruct (Hsel s "p1" 0%Z optA eq_refl) as (_ & H0 & _).
  split; [apply H3; unfold in_range; simpl; lia|].
  split; [apply H6; unfold in_range; simpl; lia|].
  split; [apply H0; unfold in_range; simpl; lia|].
  split; [apply Hnone; reflexivity|].
  apply Hinv.
  - unfold ceilings_positive. simpl. repeat constructor; simpl; lia.
  - by apply quantities_in_range_no_selection.
Defined.

(** C5, the claim as stated fails.  Selecting the sold-out option of [p3]
    stores the quantity 1 although the option's ceiling is 0, and no
    quantity change can move it: the stored quantity of a product with a
    current selection lies outside [1, maxQuantity]. *)
Lemma stored_quantity_outside_range :
  let s := fold_left perform [Select "p3" "optC"; SetQuantity "p3" 1] page_with_sold_out in
  selected_option "p3" s = Some sold_out
  ∧ quantities s !! "p3" = Some 1%Z
  ∧ ProductOption.quantity sold_out = 0%Z
  ∧ ¬ quantities_in_range s.
Proof.
  intros s. repeat split.
  intros H. destruct (H "p3" sold_out eq_refl) as (q & Hq & Hr).
  vm_compute in Hq. injection Hq as <-.
  unfold in_range in Hr. simpl in Hr. lia.
Qed.

(** ** Add or merge *)

Lemma addOrMerge_upsert (c : list CartItem.t) (pid : string) (product : Product.t)
    (oid : string) (o : ProductOption.t) (q : Z) :
  addOrMerge c pid product oid o q = upsert pid oid q (newItem pid product oid o q) c.
Proof.
  unfold addOrMerge. induction c as [|x c IH]; [done|].
  rewrite findIndex_cons. cbn [upsert].
  destruct (CartItem.is_line pid oid x); [done|].
  pose proof (findIndex_bounds (CartItem.is_line pid oid) c) as Hb.
  destruct (0 <=? findIndex (CartItem.is_line pid oid) c)%Z eqn:E.
  - apply Z.leb_le in E.
    replace (0 <=? 1 + findIndex (CartItem.is_line pid oid) c)%Z with true
      by (symmetry; apply Z.leb_le; lia).
    replace (Z.to_nat (1 + findIndex (CartItem.is_line pid oid) c))
      with (S (Z.to_nat (findIndex (CartItem.is_line pid oid) c))) by lia.
    cbn [alter list_alter]. by rewrite <- IH.
  - cbn [Z.leb Z.compare]. by rewrite <- IH.
Qed.

Lemma is_line_add_quantity (pid oid : string) (n : Z) (x : CartItem.t) :
  CartItem.is_line pid oid (CartItem.add_quantity n x) = CartItem.is_line pid oid x.
Proof. done. Qed.

Lemma is_line_newItem (pid oid pid' oid' : string) (product : Product.t)
    (o : ProductOption.t) (q : Z) :
  CartItem.is_line pid oid (newItem pid' product oid' o q) =
    bool_decide (pid' = pid) && bool_decide (oid' = oid).
Proof. done. Qed.

Lemma is_line_two_pairs (pid oid pid' oid' : string) (x : CartItem.t) :
  CartItem.is_line pid oid x = true → CartItem.is_line pid' oid' x = true →
  pid = pid' ∧ oid = oid'.
Proof.
  unfold CartItem.is_line. rewrite !andb_true_iff, !bool_decide_eq_true.
  intros [<- <-] [<- <-]. done.
Qed.

(** The lines of the added pair: a first line is bumped, or the fresh line
    becomes the only one. *)
Lemma lines_for_upsert_same (pid oid : string) (n : Z) (fresh : CartItem.t)
    (c : list CartItem.t) :
  CartItem.is_line pid oid fresh = true →
  lines_for pid oid (upsert pid oid n fresh c) =
    match lines_for pid oid c with
    | [] => [fresh]
    | x :: rest => CartItem.add_quantity n x :: rest
    end.
Proof.
  intros Hfresh. unfold lines_for. induction c as [|x c IH]; simpl.
  - by rewrite Hfresh.
  - destruct (CartItem.is_line pid oid x) eqn:E; simpl.
    + by rewrite is_line_add_quantity, E.
    + by rewrite E.
Qed.

(** The lines of every other pair are left as they are. *)
Lemma lines_for_upsert_other (pid oid pid' oid' : string) (n : Z) (fresh : CartItem.t)
    (c : list CartItem.t) :
  CartItem.is_line pid' oid' fresh = false →
  (pid, oid) ≠ (pid', oid') →
  lines_for pid' oid' (upsert pid oid n fresh c) = lines_for pid' oid' c.
Proof.
  intros Hfresh Hne. unfold lines_for. induction c as [|x c IH]; simpl.
  - by rewrite Hfresh.
  - destruct (CartItem.is_line pid oid x) eqn:E; simpl.
    + rewrite is_line_add_quantity.
      destruct (CartItem.is_line pid' oid' x) eqn:E'; [|done].
      destruct (is_line_two_pairs _ _ _ _ _ E E'). congruence.
    + by rewrite IH.
Qed.

Lemma upsert_absent (pid oid : string) (n : Z) (fresh : CartItem.t) (c : list CartItem.t) :
  lines_for pid oid c = [] → upsert pid oid n fresh c = c ++ [fresh].
Proof.
  unfold lines_for. induction c as [|x c IH]; simpl; [done|].
  destruct (CartItem.is_line pid oid x); [done|].
  intros H. by rewrite IH.
Qed.

Lemma upsert_present (pid oid : string) (n : Z) (fresh : CartItem.t) (c : list CartItem.t) :
  lines_for pid oid c ≠ [] →
  ∃ (i : nat) (x : CartItem.t),
    c !! i = Some x ∧ CartItem.is_line pid oid x = true
    ∧ lines_for pid oid (take i c) = []
    ∧ upsert pid oid n fresh c = <[i := CartItem.add_quantity n x]> c.
Proof.
  unfold lines_for. induction c as [|x c IH]; simpl; [done|].
  destruct (CartItem.is_line pid oid x) eqn:E.
  - intros _. by exists 0%nat, x.
  - intros H. destruct (IH H) as (i & y & Hi & Hy & Hbefore & Heq).
    exists (S i), y. simpl. rewrite E, Heq. done.
Qed.

Lemma upsert_changes (pid oid : string) (n : Z) (fresh : CartItem.t) (c : list CartItem.t) :
  n ≠ 0%Z → upsert pid oid n fresh c ≠ c.
Proof.
  intros Hn. induction c as [|x c IH]; simpl; [done|].
  destruct (CartItem.is_line pid oid x).
  - intros H. injection H as H. apply (f_equal CartItem.quantity) in H.
    simpl in H. lia.
  - intros H. injection H as H. by apply IH.
Qed.

Lemma sum_of_lines_upsert (pid oid : string) (n : Z) (fresh : CartItem.t)
    (c : list CartItem.t) :
  sum_of_lines (upsert pid oid n fresh c) =
    (sum_of_lines c +
       match List.find (CartItem.is_line pid oid) c with
       | Some x => CartItem.price x * n
       | None => line_amount fresh
       end)%Z.
Proof.
  unfold sum_of_lines. induction c as [|x c IH].
  - cbn [upsert List.find fmap list_fmap foldr]. lia.
  - cbn [upsert List.find]. destruct (CartItem.is_line pid oid x).
    + cbn [fmap list_fmap foldr]. unfold line_amount. simpl. lia.
    + cbn [fmap list_fmap foldr]. cbn [fmap] in IH. rewrite IH. lia.
Qed.

Lemma quantity_or_1_nonzero (q : option Z) : quantity_or_1 q ≠ 0%Z.
Proof.
  unfold quantity_or_1. destruct q as [q|]; [|done].
  destruct (q =? 0)%Z eqn:E; [done|]. by apply Z.eqb_neq in E.
Qed.

(** C4 (as amended).  A quantity request below 1 or above the selected
    option's ceiling is refused where it is made, in
    [handleQuantityChange]: the page state, hence the cart and the total,
    stays as it was and nothing is reported.  [addToCart] itself has no
    quantity check: once the product and its selected option resolve, it
    reports "Added to cart" and adds the stored quantity whatever its value
    (nothing stored, or 0, counts as 1), so the cart always changes and the
    total grows by that quantity times the unit price of the line. *)
Theorem quantity_checked_on_change_not_on_add (s : PageState) (productId : string) :
  (∀ q,
     (∀ o, selected_option productId s = Some o →
           (q < 1 ∨ ProductOption.quantity o < q)%Z) →
     handleQuantityChange productId q s = s)
  ∧ (∀ product o,
       find_product productId (products s) = Some product →
       selected_option productId s = Some o →
       let q := quantity_or_1 (quantities s !! productId) in
       let s' := (addToCart productId s).1 in
       (addToCart productId s).2 = [added_toast product o]
       ∧ cart s' = addOrMerge (cart s) productId product (ProductOption.id o) o q
       ∧ cart s' ≠ cart s
       ∧ (getTotalAmount s').1 =
           ((getTotalAmount s).1
            + unit_price productId (ProductOption.id o) o (cart s) * q)%Z).
Proof.
  split.
  - intros q Hout. apply handleQuantityChange_drop.
    intros o Ho. specialize (Hout o Ho). unfold in_range. lia.
  - intros product o Hp Ho q s'. subst q s'.
    rewrite (addToCart_success _ _ _ _ Hp Ho). simpl.
    split; [done|]. split; [done|].
    rewrite addOrMerge_upsert. split.
    + apply upsert_changes, quantity_or_1_nonzero.
    + rewrite !reduce_total, sum_of_lines_upsert. unfold unit_price.
      destruct (find (CartItem.is_line productId (ProductOption.id o)) (cart s));
        [lia|].
      unfold line_amount, newItem. cbn [CartItem.price CartItem.quantity]. lia.
Qed.

Lemma quantity_checked_on_change_not_on_add_witness :
  let s := handleOptionSelect "p1" "optA" fresh_page in
  handleQuantityChange "p1" 0 s = s
  ∧ handleQuantityChange "p1" 6 s = s
  ∧ (addToCart "p1" s).2 = [added_toast p1 optA]
  ∧ cart (addToCart "p1" s).1 = [newItem "p1" p1 "optA" optA 1]
  ∧ (getTotalAmount (addToCart "p1" s).1).1 = 1000%Z.
Proof.
  intros s.
  destruct (quantity_checked_on_change_not_on_add s "p1") as [Hdrop Hadd].
  destruct (Hadd p1 optA eq_refl eq_refl) as (Htoast & Hcart & _ & Htotal).
  split.
  { apply Hdrop. intros o Ho. injection Ho as <-. left. reflexivity. }
  split.
  { apply Hdrop. intros o Ho. injection Ho as <-. right. reflexivity. }
  split; [exact Htoast|]. split; [exact Hcart|]. exact Htotal.
Defined.

(** C4, the claim as stated fails.  After a re-fetch lowered the ceiling
    of the selected option to 2, [addToCart] adds the stored quantity 5
    and reports success; and a stored quantity of 0 is added as 1.  In both
    runs the cart and the total change and no error is raised. *)
Lemma addToCart_does_not_validate_quantity :
  (let s :=
     setProducts [p1_restocked; p2]
       (fold_left perform [Select "p1" "optA"; SetQuantity "p1" 5] fresh_page) in
   selected_option "p1" s = Some (ProductOption.mk "optA" "A" "Black" 1000 2)
   ∧ quantities s !! "p1" = Some 5%Z
   ∧ (addToCart "p1" s).2 =
       [{| title := "Added to cart"; description := "Phone - Black";
           destructive := false |}]
   ∧ CartItem.quantity <$> cart (addToCart "p1" s).1 = [5%Z]
   ∧ (getTotalAmount s).1 = 0%Z
   ∧ (getTotalAmount (addToCart "p1" s).1).1 = 5000%Z)
  ∧ (let s :=
       setQuantities (λ prev, <["p1" := 0%Z]> prev)
         (handleOptionSelect "p1" "optA" fresh_page) in
     quantities s !! "p1" = Some 0%Z
     ∧ (addToCart "p1" s).2 =
         [{| title := "Added to cart"; description := "Phone - Black";
             destructive := false |}]
     ∧ CartItem.quantity <$> cart (addToCart "p1" s).1 = [1%Z]
     ∧ (getTotalAmount s).1 = 0%Z
     ∧ (getTotalAmount (addToCart "p1" s).1).1 = 1000%Z).
Proof. repeat split. Qed.

(** ** Sequences of adds *)

Lemma add_upsert (c : list CartItem.t) (r : AddRequest) :
  add c r =
    upsert (req_productId r) (req_optionId r) (req_quantity r)
      (newItem (req_productId r) (req_product r) (req_optionId r) (req_option r)
         (req_quantity r)) c.
Proof. apply addOrMerge_upsert. Qed.

Lemma added_quantity_snoc (rs : list AddRequest) (r : AddRequest) :
  added_quantity (rs ++ [r]) = (added_quantity rs + req_quantity r)%Z.
Proof.
  unfold added_quantity. induction rs as [|x rs IH].
  - cbn [app fmap list_fmap foldr]. lia.
  - cbn [app fmap list_fmap foldr]. cbn [fmap] in IH. rewrite IH. lia.
Qed.

Lemma same_pair_eq (pid oid : string) (r : AddRequest) :
  same_pair pid oid r = true → req_productId r = pid ∧ req_optionId r = oid.
Proof.
  unfold same_pair. rewrite andb_true_iff, !bool_decide_eq_true. done.
Qed.

Lemma same_pair_ne (pid oid : string) (r : AddRequest) :
  same_pair pid oid r = false → (req_productId r, req_optionId r) ≠ (pid, oid).
Proof.
  unfold same_pair. intros H [= H1 H2].
  rewrite (bool_decide_eq_true_2 _ H1), (bool_decide_eq_true_2 _ H2) in H. done.
Qed.

(** After any sequence of adds on an empty cart, the lines of a pair are
    the single snapshot taken at the first add of that pair, carrying the
    sum of the quantities added for it. *)
Lemma lines_for_add_all (rs : list AddRequest) (pid oid : string) :
  lines_for pid oid (add_all [] rs) =
    match requests_for pid oid rs with
    | [] => []
    | first :: _ =>
        [newItem pid (req_product first) oid (req_option first)
           (added_quantity (requests_for pid oid rs))]
    end.
Proof.
  induction rs as [|r rs IH] using rev_ind; [done|].
  unfold add_all, requests_for in *. rewrite fold_left_app, List.filter_app.
  cbn [fold_left List.filter]. rewrite add_upsert.
  destruct (same_pair pid oid r) eqn:E.
  - destruct (same_pair_eq _ _ _ E) as [-> ->].
    rewrite lines_for_upsert_same by (unfold CartItem.is_line, newItem; simpl;
      by rewrite !bool_decide_eq_true_2).
    rewrite IH.
    destruct (List.filter _ rs) as [|first rest].
    + cbn [app]. unfold added_quantity. cbn [fmap list_fmap foldr].
      by rewrite Z.add_0_r.
    + cbn [app]. rewrite (app_comm_cons rest [r] first), added_quantity_snoc. done.
  - rewrite app_nil_r.
    rewrite lines_for_upsert_other; [done| |by apply same_pair_ne].
    unfold CartItem.is_line, newItem. simpl.
    unfold same_pair in E. done.
Qed.

Lemma lines_for_filter_from (pid oid : string) (f : CartItem.t → Z → bool) (i : Z)
    (c : list CartItem.t) :
  (length (lines_for pid oid (filter_from i f c)) ≤ length (lines_for pid oid c))%nat.
Proof.
  unfold lines_for. revert i. induction c as [|x c IH]; intros i; simpl; [done|].
  specialize (IH (i + 1)%Z).
  destruct (f x i); simpl; destruct (CartItem.is_line pid oid x); simpl; lia.
Qed.

Lemma one_line_per_pair_upsert (pid oid : string) (n : Z) (fresh : CartItem.t)
    (c : list CartItem.t) :
  CartItem.productId fresh = pid → CartItem.optionId fresh = oid →
  one_line_per_pair c → one_line_per_pair (upsert pid oid n fresh c).
Proof.
  intros Hp Ho Hinv pid' oid'.
  destruct (decide ((pid, oid) = (pid', oid'))) as [[= <- <-]|Hne].
  - rewrite lines_for_upsert_same
      by (unfold CartItem.is_line; by rewrite !bool_decide_eq_true_2).
    specialize (Hinv pid oid). by destruct (lines_for pid oid c).
  - rewrite lines_for_upsert_other; [apply Hinv| |done].
    unfold CartItem.is_line. rewrite Hp, Ho.
    destruct (bool_decide (pid = pid')) eqn:E1; [|done].
    destruct (bool_decide (oid = oid')) eqn:E2; [|done].
    apply bool_decide_eq_true in E1, E2. congruence.
Qed.

Lemma one_line_per_pair_perform (s : PageState) (a : Action) :
  one_line_per_pair (cart s) → one_line_per_pair (cart (perform s a)).
Proof.
  intros Hinv. destruct a as [pid oid | pid q | pid | index]; simpl perform.
  - done.
  - unfold handleQuantityChange. destruct (selected_option pid s); [|done].
    by destruct (_ && _).
  - destruct (selected_option pid s) as [o|] eqn:Eo.
    + destruct (selected_option_inv _ _ _ Eo) as (product & Hp & _ & _).
      rewrite (addToCart_success _ _ _ _ Hp Eo). simpl.
      rewrite addOrMerge_upsert. by apply one_line_per_pair_upsert.
    + by rewrite addToCart_without_selection by auto.
  - intros pid oid. simpl. unfold filter_indexed.
    etrans; [apply lines_for_filter_from|apply Hinv].
Qed.

(** C1.  Starting from the empty cart, after any sequence of add-or-merge
    calls the cart holds, for every (productId, optionId) pair that was
    added, exactly one line, whose quantity is the sum of the quantities
    added for that pair (and no line for a pair never added).  An add for a
    pair already in the cart bumps the quantity of its first line in place
    and appends nothing; an add for a new pair appends one line at the
    end.  A successful [addToCart] is such a call, with the stored quantity
    (or 1), and no sequence of page actions ever puts a second line of a
    pair into the cart. *)
Theorem addOrMerge_one_line_per_pair :
  (∀ (rs : list AddRequest) (pid oid : string),
     lines_for pid oid (add_all [] rs) =
       match requests_for pid oid rs with
       | [] => []
       | first :: _ =>
           [newItem pid (req_product first) oid (req_option first)
              (added_quantity (requests_for pid oid rs))]
       end)
  ∧ (∀ (c : list CartItem.t) (r : AddRequest),
       lines_for (req_productId r) (req_optionId r) c ≠ [] →
       ∃ (i : nat) (x : CartItem.t),
         c !! i = Some x
         ∧ CartItem.is_line (req_productId r) (req_optionId r) x = true
         ∧ lines_for (req_productId r) (req_optionId r) (take i c) = []
         ∧ add c r = <[i := CartItem.add_quantity (req_quantity r) x]> c)
  ∧ (∀ (c : list CartItem.t) (r : AddRequest),
       lines_for (req_productId r) (req_optionId r) c = [] →
       add c r =
         c ++ [newItem (req_productId r) (req_product r) (req_optionId r)
                 (req_option r) (req_quantity r)])
  ∧ (∀ (s : PageState) (productId : string) (product : Product.t)
       (o : ProductOption.t),
       find_product productId (products s) = Some product →
       selected_option productId s = Some o →
       cart (addToCart productId s).1 = add (cart s) (request_of productId product o s))
  ∧ (∀ (s : PageState) (actions : list Action),
       one_line_per_pair (cart s) →
       one_line_per_pair (cart (fold_left perform actions s))).
Proof.
  split; [exact lines_for_add_all|]. split; [|split; [|split]].
  - intros c r H. rewrite add_upsert. by apply upsert_present.
  - intros c r H. rewrite add_upsert. by apply upsert_absent.
  - intros s productId product o Hp Ho.
    by rewrite (addToCart_success _ _ _ _ Hp Ho).
  - intros s actions. revert s.
    induction actions as [|a actions IH]; intros s Hinv; [done|].
    cbn [fold_left]. by apply IH, one_line_per_pair_perform.
Qed.

Lemma addOrMerge_one_line_per_pair_witness :
  let r2 := {| req_productId := "p1"; req_product := p1; req_optionId := "optA";
               req_option := optA; req_quantity := 2 |} in
  let r3 := {| req_productId := "p1"; req_product := p1; req_optionId := "optA";
               req_option := optA; req_quantity := 3 |} in
  lines_for "p1" "optA" (add_all [] [r2; r3]) = [newItem "p1" p1 "optA" optA 5]
  ∧ add [newItem "p1" p1 "optA" optA 2] r3 = [newItem "p1" p1 "optA" optA 5]
  ∧ add [newItem "p2" p2 "optK" (ProductOption.mk "optK" "K" "ANSI" 300 10) 1] r3
    = [newItem "p2" p2 "optK" (ProductOption.mk "optK" "K" "ANSI" 300 10) 1;
       newItem "p1" p1 "optA" optA 3].
Proof.
  intros r2 r3.
  destruct addOrMerge_one_line_per_pair as (Hone & Hmerge & Happend & _ & _).
  split; [exact (Hone [r2; r3] "p1" "optA")|].
  split.
  - destruct (Hmerge [newItem "p1" p1 "optA" optA 2] r3) as (i & x & Hi & _ & _ & Heq);
      [discriminate|].
    rewrite Heq. destruct i as [|i]; [|destruct i; discriminate].
    injection Hi as <-. reflexivity.
  - apply (Happend [newItem "p2" p2 "optK" (ProductOption.mk "optK" "K" "ANSI" 300 10) 1] r3).
    reflexivity.
Defined.

(** The scenario of the spec, through the handlers: two adds of ("p1",
    "optA") with quantities 2 and 3 leave one line of 5 and a total of five
    unit prices. *)
Example add_two_then_three :
  let s :=
    fold_left perform
      [Select "p1" "optA"; SetQuantity "p1" 2; Add "p1";
       Select "p1" "optA"; SetQuantity "p1" 3; Add "p1"] fresh_page in
  cart s = [newItem "p1" p1 "optA" optA 5]
  ∧ (getTotalAmount s).1 = (5 * ProductOption.price optA)%Z.
Proof. split; reflexivity. Qed.

(** ** Push channel and notifications *)

Section ProviderProperties.

Context (atob : string → option string).
Context (JSON_parse : string → option Json.value).

(** *** Timers *)







(** *** The message effect *)

Lemma messageEffect_malformed (s : ProviderState) (data : string) :
  lastMessage s = Some data → JSON_parse data = None →
  messageEffect JSON_parse s =
    if connect s then emit [ConsoleError "Failed to parse WebSocket message:"] s else s.
Proof. unfold messageEffect. intros -> ->. done. Qed.

Lemma render_malformed (s : ProviderState) (data : string) :
  lastMessage s = Some data → JSON_parse data = None →
  render JSON_parse s = inr SyntaxError.
Proof. unfold render. intros -> ->. done. Qed.








Lemma step_malformed (s : ProviderState) (data : string) :
  readyState s = Connected → JSON_parse data = None →
  step JSON_parse s (SocketMessage data) = Crashed SyntaxError.
Proof.
  intros Hc Hp. unfold step, handle, hook_event. rewrite Hc.
  by rewrite (render_malformed _ data).
Qed.

(** *** Two product events in a row *)


(** *** Role gate *)

Lemma connect_buyer (s : ProviderState) :
  connect s = true ↔ userRole s = Some (Json.JString "buyer").
Proof.
  unfold connect, Json.is_string.
  destruct (userRole s) as [[]|]; try (split; [done|by intros [=]]).
  rewrite bool_decide_eq_true. split; [by intros ->|by intros [= ->]].
Qed.

Lemma idle_fire (s : ProviderState) (x : Z * Timer) : idle s → idle (fire s x).
Proof.
  intros (H1 & H2 & H3 & H4). destruct x as [d []]; unfold fire, hook_connect; simpl.
  - done.
  - done.
  - by rewrite H1.
Qed.

Lemma idle_fire_all (due : list (Z * Timer)) (s : ProviderState) :
  idle s → idle (fold_left fire due s).
Proof.
  revert s. induction due as [|x due IH]; intros s H; [done|].
  cbn [fold_left]. by apply IH, idle_fire.
Qed.

Lemma idle_step (s : ProviderState) (e : Event) :
  idle s → ∃ s', step JSON_parse s e = Running s' ∧ idle s'.
Proof.
  intros Hidle. pose proof Hidle as (H1 & H2 & H3 & H4).
  assert (∀ s1, idle s1 → delivers e s = false →
            ∃ s', match render JSON_parse s1 with
                  | inr err => Crashed err
                  | inl _ => Running (if delivers e s then messageEffect JSON_parse s1 else s1)
                  end = Running s' ∧ idle s') as Hcommit.
  { intros s1 Hs1 ->. unfold render.
    rewrite (proj2 (proj2 (proj2 Hs1))). by exists s1. }
  assert (delivers e s = false) as Hd by (unfold delivers; rewrite H2; by destruct e).
  unfold step. apply Hcommit; [|done].
  destruct e; unfold handle, hook_event; rewrite ?H2; try done.
  unfold advance. destruct (now s <=? t)%Z; [|done].
  by apply idle_fire_all.
Qed.

Lemma idle_run (events : list Event) (s : ProviderState) :
  idle s → ∃ s', run JSON_parse s events = Running s' ∧ idle s'.
Proof.
  revert s. induction events as [|e events IH]; intros s H; [by exists s|].
  cbn [run]. destruct (idle_step s e H) as (s1 & -> & H1). by apply IH.
Qed.

Lemma read_role_logged (token : option string) :
  (read_role atob JSON_parse token).2 = []
  ∨ (read_role atob JSON_parse token).2 = [ConsoleError "Failed to parse token:"].
Proof.
  unfold read_role. destruct token as [token|]; [|by left].
  case_bool_decide; [by left|].
  destruct (atob _); [|by right]. destruct (JSON_parse _); [|by right].
  destruct (Json.get _ _); [by left|by right].
Qed.

(** C8.  When the role stored by the mount effect is not the string
    "buyer" (a supplier's token, no token, a token that does not decode),
    mounting makes no connection attempt and, whatever happens afterwards
    (socket events, frames, clock ticks, dismiss clicks), the provider keeps
    running with the channel [Disconnected] and no attempt made.  When the
    stored role is "buyer", mounting makes one attempt and the channel is
    [Connecting]. *)
Theorem no_subscription_unless_buyer (token : option string) :
  (userRole (mount atob JSON_parse token) ≠ Some (Json.JString "buyer") →
     attempts (mount atob JSON_parse token) = 0%nat
     ∧ ∀ events, ∃ s',
         run JSON_parse (mount atob JSON_parse token) events = Running s'
         ∧ readyState s' = Disconnected ∧ attempts s' = 0%nat)
  ∧ (userRole (mount atob JSON_parse token) = Some (Json.JString "buyer") →
     readyState (mount atob JSON_parse token) = Connecting
     ∧ attempts (mount atob JSON_parse token) = 1%nat).
Proof.
  unfold mount.
  pose proof (read_role_logged token) as Hl.
  destruct (read_role atob JSON_parse token) as [role logged]. simpl in Hl.
  assert (idle (emit logged initial)) as Hidle0
    by (destruct Hl as [-> | ->]; done).
  destruct role as [role|].
  - set (s0 := setUserRole role (emit logged initial)).
    destruct (connect s0) eqn:Ec.
    + assert (hook_connect s0 =
                emit [ConnectAttempt websocket_url]
                  (set_hook Connecting (lastMessage s0) (reconnectCount s0) s0)) as ->
        by (unfold hook_connect; by rewrite Ec).
      split.
      * intros Hne. exfalso. apply Hne. by apply (connect_buyer s0).
      * intros _. split; [done|]. destruct Hl as [-> | ->]; done.
    + assert (hook_connect s0 = s0) as -> by (unfold hook_connect; by rewrite Ec).
      assert (idle s0) as Hidle.
      { destruct Hidle0 as (_ & ? & ? & ?). done. }
      split.
      * intros _. split; [apply Hidle|]. intros events.
        destruct (idle_run events s0 Hidle) as (s' & Hrun & _ & ? & ? & _). eauto.
      * intros Hrole. apply (connect_buyer s0) in Hrole. congruence.
  - split.
    + intros _. split; [apply Hidle0|]. intros events.
      destruct (idle_run events _ Hidle0) as (s' & Hrun & _ & ? & ? & _). eauto.
    + destruct Hl as [-> | ->]; done.
Qed.

End ProviderProperties.



Lemma no_subscription_unless_buyer_witness :
  (attempts (mount Json.atob Json.parse (Some supplier_token)) = 0%nat
   ∧ ∀ events, ∃ s',
       run Json.parse (mount Json.atob Json.parse (Some supplier_token)) events
       = Running s'
       ∧ readyState s' = Disconnected ∧ attempts s' = 0%nat)
  ∧ (readyState (mount Json.atob Json.parse (Some buyer_token)) = Connecting
     ∧ attempts (mount Json.atob Json.parse (Some buyer_token)) = 1%nat).
Proof.
  split.
  - apply (no_subscription_unless_buyer Json.atob Json.parse (Some supplier_token)).
    vm_compute. discriminate.
  - apply (no_subscription_unless_buyer Json.atob Json.parse (Some buyer_token)).
    vm_compute. reflexivity.
Defined.

(** C2 (code defect).  A malformed frame on the connected channel of a
    buyer: the message effect would only log it (its [catch] leaves the
    channel and the notifications as they are), but the render that
    precedes the effect parses the same payload again to build the context
    value, outside any [try], and the [SyntaxError] escapes the provider. *)
Theorem malformed_frame_crashes_render :
  readyState connected_buyer = Connected
  ∧ connect connected_buyer = true
  ∧ Json.parse malformed_frame = None
  ∧ messageEffect Json.parse (handle (SocketMessage malformed_frame) connected_buyer)
    = emit [ConsoleError "Failed to parse WebSocket message:"]
        (handle (SocketMessage malformed_frame) connected_buyer)
  ∧ render Json.parse (handle (SocketMessage malformed_frame) connected_buyer)
    = inr SyntaxError
  ∧ step Json.parse connected_buyer (SocketMessage malformed_frame)
    = Crashed SyntaxError
  ∧ ∀ rest, run Json.parse connected_buyer (SocketMessage malformed_frame :: rest)
            = Crashed SyntaxError.
Proof.
  assert (Json.parse malformed_frame = None) as Hbad by (vm_compute; reflexivity).
  assert (readyState connected_buyer = Connected) as Hc by reflexivity.
  split; [done|]. split; [reflexivity|]. split; [done|].
  split; [by rewrite (messageEffect_malformed Json.parse _ malformed_frame)|].
  split; [by apply (render_malformed Json.parse _ malformed_frame)|].
  split; [by apply step_malformed|].
  intros rest. cbn [run]. by rewrite step_malformed.
Qed.

(** * Further properties of the marketplace page *)

(** ** The cart and the order *)

Lemma lines_for_elem (pid oid : string) (c : list CartItem.t) (x : CartItem.t) :
  x ∈ c → CartItem.productId x = pid → CartItem.optionId x = oid →
  x ∈ lines_for pid oid c.
Proof.
  intros Hin Hp Ho. unfold lines_for. rewrite list_elem_of_In, filter_In.
  split; [by apply list_elem_of_In|].
  unfold CartItem.is_line. by rewrite !bool_decide_eq_true_2.
Qed.

Lemma one_line_per_pair_tail (x : CartItem.t) (c : list CartItem.t) :
  one_line_per_pair (x :: c) → one_line_per_pair c.
Proof.
  intros H pid oid. specialize (H pid oid). unfold lines_for in *. simpl in H.
  destruct (CartItem.is_line pid oid x); simpl in H; lia.
Qed.

Lemma one_line_per_pair_NoDup (c : list CartItem.t) :
  one_line_per_pair c →
  NoDup ((λ item, (CartItem.productId item, CartItem.optionId item)) <$> c).
Proof.
  induction c as [|x c IH]; intros Hinv; [constructor|].
  cbn [fmap list_fmap]. constructor; [|by eapply IH, one_line_per_pair_tail].
  intros Hdup. apply list_elem_of_fmap in Hdup as (y & [= Hp Ho] & Hy).
  specialize (Hinv (CartItem.productId x) (CartItem.optionId x)).
  pose proof (lines_for_elem _ _ c y Hy (eq_sym Hp) (eq_sym Ho)) as Hin.
  unfold lines_for in *. simpl in Hinv.
  unfold CartItem.is_line at 1 in Hinv. rewrite !bool_decide_eq_true_2 in Hinv by done.
  simpl in Hinv. destruct (List.filter _ c); [by apply elem_of_nil in Hin|].
  simpl in Hinv. lia.
Qed.

Lemma one_line_per_pair_actions (actions : list Action) (s : PageState) :
  one_line_per_pair (cart s) → one_line_per_pair (cart (fold_left perform actions s)).
Proof.
  revert s. induction actions as [|a actions IH]; intros s Hinv; [done|].
  cbn [fold_left]. by apply IH, one_line_per_pair_perform.
Qed.

(** X1.  The order posted by [handleCreateOrder] has one entry per cart
    line, in cart order, with the line's product, option and quantity; and
    in any cart reached by page actions from a cart with at most one line
    per pair, no two entries of the order name the same (product, option)
    pair. *)
Theorem order_items_distinct_pairs (s : PageState) (actions : list Action) :
  one_line_per_pair (cart s) →
  let c := cart (fold_left perform actions s) in
  length (orderItems c) = length c
  ∧ (∀ i item, c !! i = Some item →
       orderItems c !! i =
         Some {| product_id := CartItem.productId item;
                 product_option_id := CartItem.optionId item;
                 order_quantity := CartItem.quantity item; currency := "JPY" |})
  ∧ NoDup ((λ o, (product_id o, product_option_id o)) <$> orderItems c).
Proof.
  intros Hinv c.
  assert (one_line_per_pair c) as Hc by (by apply one_line_per_pair_actions).
  unfold orderItems. split; [apply length_map|]. split.
  - intros i item Hi. change (map ?f c) with (f <$> c).
    by rewrite list_lookup_fmap, Hi.
  - change (map ?f c) with (f <$> c). rewrite <- list_fmap_compose.
    by apply one_line_per_pair_NoDup.
Qed.

Lemma order_items_distinct_pairs_witness :
  let c :=
    cart (fold_left perform
            [Select "p1" "optA"; Add "p1"; Select "p2" "optK"; Add "p2";
             Select "p1" "optA"; SetQuantity "p1" 3; Add "p1"] fresh_page) in
  length (orderItems c) = 2%nat
  ∧ NoDup ((λ o, (product_id o, product_option_id o)) <$> orderItems c).
Proof.
  intros c.
  destruct (order_items_distinct_pairs fresh_page
              [Select "p1" "optA"; Add "p1"; Select "p2" "optK"; Add "p2";
               Select "p1" "optA"; SetQuantity "p1" 3; Add "p1"]) as (Hlen & _ & Hnd).
  - intros pid oid. simpl. lia.
  - split; [exact Hlen | exact Hnd].
Defined.

(** X2.  [handleCreateOrder] on an empty cart does nothing at all: no
    request, no toast, no navigation, no state change.  On a non-empty cart
    it posts the order items, raises exactly one toast, navigates (to the
    created order) exactly when the order was created, leaves
    [isCreatingOrder] false and never touches the cart, the selections, the
    catalogue or the pagination, not even after a successful order. *)
Theorem handleCreateOrder_outcomes (response : OrderResponse) (m : MarketplaceState) :
  (cart (shop m) = [] →
     handleCreateOrder response m =
       {| sent := None; raised := []; pushed := None; after := m |})
  ∧ (cart (shop m) ≠ [] →
     let run := handleCreateOrder response m in
     sent run = Some (orderItems (cart (shop m)))
     ∧ length (raised run) = 1%nat
     ∧ (is_Some (pushed run) ↔ ∃ id, response = OrderCreated id)
     ∧ (∀ id, response = OrderCreated id →
          pushed run = Some ("/buyer/orders/" ++ id)%string
          ∧ raised run = [order_created_toast])
     ∧ after run = setIsCreatingOrder false m).
Proof.
  unfold handleCreateOrder. split.
  - by intros ->.
  - intros Hne. destruct (cart (shop m)) as [|x c] eqn:E; [done|].
    destruct response as [id|message|]; simpl.
    all: split; [done|]; split; [done|]; split; [|split; [|done]].
    + split; eauto.
    + by intros id' [= ->].
    + split; [by intros [? ?]|by intros [? ?]].
    + by intros id'.
    + split; [by intros [? ?]|by intros [? ?]].
    + by intros id'.
Qed.

Lemma handleCreateOrder_outcomes_witness :
  handleCreateOrder (OrderCreated "o42") initial_marketplace
  = {| sent := None; raised := []; pushed := None; after := initial_marketplace |}
  ∧ pushed (handleCreateOrder (OrderCreated "o42") browsing_marketplace)
    = Some "/buyer/orders/o42"
  ∧ after (handleCreateOrder (OrderCreated "o42") browsing_marketplace)
    = browsing_marketplace.
Proof.
  split.
  - apply (proj1 (handleCreateOrder_outcomes (OrderCreated "o42") initial_marketplace)).
    reflexivity.
  - destruct (proj2 (handleCreateOrder_outcomes (OrderCreated "o42") browsing_marketplace))
      as (_ & _ & _ & Hok & Hafter); [discriminate|].
    split; [apply (Hok "o42" eq_refl)|exact Hafter].
Defined.

(** ** Catalogue fetch, search and pagination *)

(** X3.  Whatever the response, [fetchProducts] leaves the cart, the
    selections and the stored quantities as they were and ends with
    [isLoading] false.  A failed request (not [ok], or an exception) also
    leaves the catalogue and the pagination untouched and raises exactly one
    error toast; a successful one raises none, replaces the catalogue
    wholesale (by the empty list when [items] is missing) and takes the
    pagination from the response. *)
Theorem fetchProducts_keeps_cart (response : ProductsResponse) (m : MarketplaceState) :
  let m' := (fetchProducts response m).1 in
  cart (shop m') = cart (shop m)
  ∧ selectedOptions (shop m') = selectedOptions (shop m)
  ∧ quantities (shop m') = quantities (shop m)
  ∧ isLoading m' = false
  ∧ searchTerm m' = searchTerm m ∧ productFilter m' = productFilter m
  ∧ match response with
    | ProductsOk items limit page pages total =>
        products (shop m') = default [] items
        ∧ pagination m' = {| currentPage := page; totalPages := pages;
                             totalItems := total; itemsPerPage := limit |}
        ∧ (fetchProducts response m).2 = []
    | _ =>
        products (shop m') = products (shop m)
        ∧ pagination m' = pagination m
        ∧ length (fetchProducts response m).2 = 1%nat
    end.
Proof. by destruct response. Qed.

Lemma toString_1 : toString 1 = "1".
Proof. reflexivity. Qed.

(** X4.  The query of the next catalogue request after a filter handler:
    [handleReset] leaves only [page=1] and [limit=12]; [handleSearch] goes
    back to page 1 and sends the [search] entry exactly when the term is
    not empty; [handleProductFilterChange] goes back to page 1 and sends
    the [category] entry unless the value is "all" (or empty). *)
Theorem queryParams_after_filters (m : MarketplaceState) :
  queryParams (handleReset m) = [("page", "1"); ("limit", "12")]
  ∧ (∀ value,
       queryParams (handleSearch value m) =
         [("page", "1"); ("limit", "12")]
         ++ (if bool_decide (value = EmptyString) then [] else [("search", value)])
         ++ (if bool_decide (productFilter m = EmptyString) then []
             else [("category", productFilter m)]))
  ∧ (∀ value,
       queryParams (handleProductFilterChange value m) =
         [("page", "1"); ("limit", "12")]
         ++ (if bool_decide (searchTerm m = EmptyString) then []
             else [("search", searchTerm m)])
         ++ (if bool_decide (value = "all") || bool_decide (value = EmptyString)
             then [] else [("category", value)])).
Proof.
  unfold queryParams. split; [done|]. split; [done|].
  intros value. simpl. rewrite toString_1.
  destruct (bool_decide (value = "all")) eqn:E; [done|]. done.
Qed.

Lemma elem_of_pageButtons (p : PaginationInfo) (n : Z) :
  Some n ∈ pageButtons p ↔
  ((totalPages p ≤ 5 ∧ 1 ≤ n ≤ totalPages p)
   ∨ (5 < totalPages p
      ∧ Z.max 1 (currentPage p - 2) ≤ n < Z.max 1 (currentPage p - 2) + 5
      ∧ n ≤ totalPages p))%Z.
Proof.
  unfold pageButtons. rewrite list_elem_of_fmap. split.
  - intros (i & Heq & Hi). apply elem_of_seqZ in Hi.
    destruct (Z.leb_spec (totalPages p) 5).
    + injection Heq as ->. left. lia.
    + destruct (Z.ltb_spec (totalPages p) (Z.max 1 (currentPage p - 2) + i)); [done|].
      injection Heq as ->. right. lia.
  - intros [[Hle Hn]|(Hgt & Hn & Hle)].
    + exists (n - 1)%Z. rewrite elem_of_seqZ.
      destruct (Z.leb_spec (totalPages p) 5); [|lia].
      split; [f_equal; lia|lia].
    + exists (n - Z.max 1 (currentPage p - 2))%Z. rewrite elem_of_seqZ.
      destruct (Z.leb_spec (totalPages p) 5); [lia|].
      replace (Z.max 1 (currentPage p - 2) + (n - Z.max 1 (currentPage p - 2)))%Z
        with n by lia.
      destruct (Z.ltb_spec (totalPages p) n); [lia|]. split; [done|lia].
Qed.

(** X5.  The window of page buttons has at most five entries; every page
    number it offers lies in [1, totalPages]; and whenever the current page
    lies in [1, totalPages] it is one of the buttons. *)
Theorem pageButtons_in_range (p : PaginationInfo) :
  (length (pageButtons p) ≤ 5)%nat
  ∧ (∀ n, Some n ∈ pageButtons p → (1 ≤ n ≤ totalPages p)%Z)
  ∧ ((1 ≤ currentPage p ≤ totalPages p)%Z → Some (currentPage p) ∈ pageButtons p).
Proof.
  split; [|split].
  - unfold pageButtons. rewrite length_fmap, length_seqZ. lia.
  - intros n Hn. apply elem_of_pageButtons in Hn. lia.
  - intros Hcp. apply elem_of_pageButtons.
    destruct (Z.le_gt_cases (totalPages p) 5); [left|right]; lia.
Qed.

Lemma pageButtons_in_range_witness :
  Some 4%Z ∈ pageButtons (pagination browsing_marketplace)
  ∧ pageButtons (pagination browsing_marketplace)
    = [Some 2; Some 3; Some 4; Some 5; Some 6]%Z
  ∧ pageButtons {| currentPage := 9; totalPages := 9; totalItems := 100;
                   itemsPerPage := 12 |}
    = [Some 7; Some 8; Some 9; None; None]%Z.
Proof.
  split; [|split; reflexivity].
  apply (pageButtons_in_range (pagination browsing_marketplace)).
  simpl. lia.
Defined.

(** X6.  Clicking in the pagination bar ([Previous], [Next] or a page
    button) never takes the current page out of [1, totalPages], and
    changes nothing but the current page. *)
Theorem clickPage_stays_in_range (clicks : list PageClick) (m : MarketplaceState) :
  (1 ≤ currentPage (pagination m) ≤ totalPages (pagination m))%Z →
  let m' := fold_left (λ m c, clickPage c m) clicks m in
  (1 ≤ currentPage (pagination m') ≤ totalPages (pagination m'))%Z
  ∧ m' = handlePageChange (currentPage (pagination m')) m.
Proof.
  revert m. induction clicks as [|c clicks IH]; intros m Hin.
  - split; [done|]. by destruct m as [? [] ? ? ? ?].
  - cbn [fold_left].
    assert ((1 ≤ currentPage (pagination (clickPage c m))
               ≤ totalPages (pagination (clickPage c m)))%Z
            ∧ ∃ n, clickPage c m = handlePageChange n m) as [Hin' [n Hn]].
    { assert (m = handlePageChange (currentPage (pagination m)) m) as Hm
        by (by destruct m as [? [] ? ? ? ?]).
      unfold clickPage.
      destruct (Z.ltb_spec 1 (totalPages (pagination m))); [|eauto].
      destruct c as [| |k].
      - destruct (Z.leb_spec (currentPage (pagination m)) 1); [eauto|].
        split; [simpl; lia|eauto].
      - destruct (Z.leb_spec (totalPages (pagination m)) (currentPage (pagination m)));
          [eauto|]. split; [simpl; lia|eauto].
      - case_bool_decide as Hk; [|eauto].
        apply elem_of_pageButtons in Hk. split; [simpl; lia|eauto]. }
    destruct (IH (clickPage c m) Hin') as [Hr Heq]. split; [done|].
    cbn zeta in Heq. rewrite Heq at 1. by rewrite Hn.
Qed.

Lemma clickPage_stays_in_range_witness :
  currentPage (pagination
    (fold_left (λ m c, clickPage c m)
       [Next; Next; PageNumber 8; Next; Next; PageNumber 2; Previous]
       browsing_marketplace)) = 8%Z.
Proof.
  destruct (clickPage_stays_in_range
              [Next; Next; PageNumber 8; Next; Next; PageNumber 2; Previous]
              browsing_marketplace) as [_ Heq]; [simpl; lia|].
  reflexivity.
Defined.

(** X7.  On a page that has items (the page number is at least 1, the page
    size is positive and the items before this page do not exhaust the
    total), the "Showing [first] to [last]" range is well formed: it starts
    at 1 or later, ends no later than the total, is not empty and spans at
    most one page of items. *)
Theorem showing_range (p : PaginationInfo) :
  (1 ≤ currentPage p)%Z → (0 < itemsPerPage p)%Z →
  ((currentPage p - 1) * itemsPerPage p < totalItems p)%Z →
  (1 ≤ (showing p).1 ≤ (showing p).2)%Z
  ∧ ((showing p).2 ≤ totalItems p)%Z
  ∧ ((showing p).2 - (showing p).1 < itemsPerPage p)%Z.
Proof.
  unfold showing. simpl. intros H1 H2 H3. nia.
Qed.

Lemma showing_range_witness :
  showing (pagination browsing_marketplace) = (37, 48)%Z
  ∧ (1 ≤ 37 ≤ 48)%Z ∧ (48 ≤ 100)%Z ∧ (48 - 37 < 12)%Z.
Proof.
  split; [reflexivity|].
  apply (showing_range (pagination browsing_marketplace)); simpl; lia.
Defined.

(** ** Quantity controls *)

Lemma setQuantities_insert_id (s : PageState) (productId : string) (q : Z) :
  quantities s !! productId = Some q →
  setQuantities (λ prev, <[productId := q]> prev) s = s.
Proof.
  intros Hq. destruct s as [ps c sel qs]. unfold setQuantities. simpl in *.
  f_equal. by apply insert_id.
Qed.

Lemma setQuantities_twice (s : PageState) (productId : string) (q1 q2 : Z) :
  setQuantities (λ prev, <[productId := q2]> prev)
    (setQuantities (λ prev, <[productId := q1]> prev) s)
  = setQuantities (λ prev, <[productId := q2]> prev) s.
Proof.
  unfold setQuantities. simpl. f_equal. apply insert_insert_eq.
Qed.

Lemma selected_option_setQuantities (s : PageState) (f : gmap string Z → gmap string Z)
    (productId : string) :
  selected_option productId (setQuantities f s) = selected_option productId s.
Proof. done. Qed.

Lemma quantity_or_1_in_range (q : Z) : (1 ≤ q)%Z → quantity_or_1 (Some q) = q.
Proof.
  intros H. unfold quantity_or_1. destruct (Z.eqb_spec q 0); [lia|done].
Qed.

(** X8.  On a product card whose controls are shown, with a resolved
    selection and a stored quantity inside [1, maxQuantity]: the plus
    button adds exactly one below the ceiling and does nothing at the
    ceiling; the minus button takes exactly one off above 1 and does
    nothing at 1; plus then minus (below the ceiling) and minus then plus
    (above 1) give back the very same page state; and whatever control is
    used, with whatever typed value, the stored quantity stays inside
    [1, maxQuantity]. *)
Theorem quantity_controls (s : PageState) (product : Product.t)
    (o : ProductOption.t) (q : Z) :
  add_button_rendered product s = true →
  selected_option (Product.id product) s = Some o →
  quantities s !! Product.id product = Some q →
  in_range q o →
  quantities (useQuantityControl Plus product s) !! Product.id product
    = Some (if (q <? ProductOption.quantity o)%Z then q + 1 else q)%Z
  ∧ quantities (useQuantityControl Minus product s) !! Product.id product
    = Some (if (1 <? q)%Z then q - 1 else q)%Z
  ∧ ((q < ProductOption.quantity o)%Z →
     useQuantityControl Minus product (useQuantityControl Plus product s) = s)
  ∧ ((1 < q)%Z →
     useQuantityControl Plus product (useQuantityControl Minus product s) = s)
  ∧ (∀ c, ∃ q', quantities (useQuantityControl c product s) !! Product.id product
                = Some q' ∧ in_range q' o).
Proof.
  intros Hshown Hsel Hq [Hq1 Hq2].
  set (pid := Product.id product) in *.
  assert (∀ n, in_range n o →
            useQuantityControl Plus product
              (setQuantities (λ prev, <[pid := n]> prev) s)
            = handleQuantityChange pid (n + 1)
                (setQuantities (λ prev, <[pid := n]> prev) s)) as Hplus_at.
  { intros n [Hn _]. unfold useQuantityControl. fold pid.
    assert (add_button_rendered product (setQuantities (λ prev, <[pid := n]> prev) s)
            = true) as -> by done.
    simpl. by rewrite lookup_insert_eq, quantity_or_1_in_range. }
  assert (useQuantityControl Plus product s = handleQuantityChange pid (q + 1) s) as HP.
  { unfold useQuantityControl. fold pid. by rewrite Hshown, Hq, quantity_or_1_in_range. }
  assert (useQuantityControl Minus product s =
            if (1 <? q)%Z then handleQuantityChange pid (q - 1) s else s) as HM.
  { unfold useQuantityControl. fold pid. rewrite Hshown, Hq. unfold minus_disabled.
    rewrite quantity_or_1_in_range by done.
    destruct (Z.eqb_spec q 0); [lia|].
    destruct (Z.leb_spec q 1), (Z.ltb_spec 1 q); try lia; done. }
  assert (∀ n, in_range n o →
            handleQuantityChange pid n s = setQuantities (λ prev, <[pid := n]> prev) s)
    as Hacc by (intros n Hn; by apply handleQuantityChange_accept with o).
  assert (∀ n, ¬ in_range n o → handleQuantityChange pid n s = s) as Hdrop.
  { intros n Hn. apply handleQuantityChange_drop. intros o' Ho'.
    assert (o' = o) as -> by congruence. done. }
  split; [|split; [|split; [|split]]].
  - rewrite HP. destruct (Z.ltb_spec q (ProductOption.quantity o)).
    + rewrite Hacc by (unfold in_range; lia). simpl. apply lookup_insert_eq.
    + rewrite Hdrop by (unfold in_range; lia). done.
  - rewrite HM. destruct (Z.ltb_spec 1 q); [|done].
    rewrite Hacc by (unfold in_range; lia). simpl. apply lookup_insert_eq.
  - intros Hlt. rewrite HP, Hacc by (unfold in_range; lia).
    unfold useQuantityControl. fold pid.
    assert (add_button_rendered product
              (setQuantities (λ prev, <[pid := (q + 1)%Z]> prev) s) = true) as ->
      by done.
    simpl (quantities _ !! pid). rewrite lookup_insert_eq. unfold minus_disabled.
    destruct (Z.eqb_spec (q + 1) 0); [lia|].
    destruct (Z.leb_spec (q + 1) 1); [lia|]. cbn [orb].
    rewrite quantity_or_1_in_range by lia.
    replace (q + 1 - 1)%Z with q by lia.
    erewrite handleQuantityChange_accept;
      [|by rewrite selected_option_setQuantities|unfold in_range; lia].
    rewrite setQuantities_twice. by apply setQuantities_insert_id.
  - intros Hgt. rewrite HM. destruct (Z.ltb_spec 1 q); [|lia].
    rewrite Hacc by (unfold in_range; lia).
    rewrite Hplus_at by (unfold in_range; lia).
    replace (q - 1 + 1)%Z with q by lia.
    erewrite handleQuantityChange_accept;
      [|by rewrite selected_option_setQuantities|unfold in_range; lia].
    rewrite setQuantities_twice. by apply setQuantities_insert_id.
  - intros c.
    assert (∀ n, ∃ q', quantities (handleQuantityChange pid n s) !! pid = Some q'
                       ∧ in_range q' o) as Hany.
    { intros n. destruct (decide (in_range n o)) as [Hn|Hn].
      - rewrite Hacc by done. exists n. simpl. by rewrite lookup_insert_eq.
      - rewrite Hdrop by done. exists q. by split. }
    destruct c as [| |parsed].
    + rewrite HM. destruct (1 <? q)%Z; [apply Hany|]. exists q. by split.
    + rewrite HP. apply Hany.
    + unfold useQuantityControl. fold pid. rewrite Hshown. apply Hany.
Qed.

Lemma quantity_controls_witness :
  let s := handleQuantityChange "p1" 3 (handleOptionSelect "p1" "optA" fresh_page) in
  quantities (useQuantityControl Plus p1 s) !! "p1" = Some 4%Z
  ∧ quantities (useQuantityControl Minus p1 s) !! "p1" = Some 2%Z
  ∧ useQuantityControl Minus p1 (useQuantityControl Plus p1 s) = s
  ∧ useQuantityControl Plus p1 (useQuantityControl Minus p1 s) = s.
Proof.
  intros s.
  destruct (quantity_controls s p1 optA 3%Z) as (HP & HM & HPM & HMP & _).
  - reflexivity.
  - reflexivity.
  - reflexivity.
  - unfold in_range. simpl. lia.
  - split; [exact HP|]. split; [exact HM|].
    split; [apply HPM; simpl; lia|apply HMP; lia].
Defined.

(** ** Cart lines *)

Lemma sum_of_lines_take_drop (c : list CartItem.t) (i : nat) (item : CartItem.t) :
  c !! i = Some item →
  sum_of_lines c = (sum_of_lines (take i c ++ drop (S i) c) + line_amount item)%Z.
Proof.
  intros Hi. rewrite <- (take_drop_middle c i item Hi) at 1.
  rewrite !sum_of_lines_app. unfold sum_of_lines at 2.
  cbn [fmap list_fmap foldr]. fold (sum_of_lines (drop (S i) c)). lia.
Qed.

(** X9.  Removing the line at an index inside the cart lowers the total by
    exactly that line's price times its quantity. *)
Theorem removeFromCart_total (s : PageState) (index : nat) (item : CartItem.t) :
  cart s !! index = Some item →
  (getTotalAmount (removeFromCart (Z.of_nat index) s)).1
  = ((getTotalAmount s).1 - CartItem.price item * CartItem.quantity item)%Z.
Proof.
  intros Hi. pose proof (lookup_lt_Some _ _ _ Hi) as Hlt.
  unfold getTotalAmount, removeFromCart, filter_indexed. cbn [fst setCart cart].
  rewrite !reduce_total, filter_from_drop_one by lia.
  replace (Z.to_nat (Z.of_nat index - 0)) with index by lia.
  rewrite (sum_of_lines_take_drop _ _ _ Hi). unfold line_amount. lia.
Qed.

Lemma removeFromCart_total_witness :
  let s := setCart [newItem "p1" p1 "optA" optA 2; newItem "p1" p1 "optB" optB 1]
             fresh_page in
  (getTotalAmount s).1 = 3200%Z
  ∧ (getTotalAmount (removeFromCart 1 s)).1 = (3200 - 1200 * 1)%Z.
Proof.
  intros s. split; [reflexivity|].
  apply (removeFromCart_total s 1 (newItem "p1" p1 "optB" optB 1)). reflexivity.
Defined.

(** X10.  Adding a pair that is not yet in the cart and then removing the
    last line gives back the cart as it was before the add. *)
Theorem add_then_remove_last (s : PageState) (productId : string)
    (product : Product.t) (o : ProductOption.t) :
  find_product productId (products s) = Some product →
  selected_option productId s = Some o →
  lines_for productId (ProductOption.id o) (cart s) = [] →
  cart (removeFromCart (Z.of_nat (length (cart s))) (addToCart productId s).1)
  = cart s.
Proof.
  intros Hp Ho Hnew. rewrite (addToCart_success _ _ _ _ Hp Ho).
  unfold removeFromCart, filter_indexed. cbn [fst setCart setQuantities
    setSelectedOptions cart].
  rewrite addOrMerge_upsert, upsert_absent by done.
  rewrite filter_from_drop_one by (rewrite length_app; simpl; lia).
  replace (Z.to_nat (Z.of_nat (length (cart s)) - 0)) with (length (cart s)) by lia.
  rewrite take_app_length.
  rewrite drop_ge by (rewrite length_app; simpl; lia).
  apply app_nil_r.
Qed.

Lemma add_then_remove_last_witness :
  let s := handleOptionSelect "p2" "optK"
             (setCart [newItem "p1" p1 "optA" optA 2] fresh_page) in
  cart (removeFromCart 1 (addToCart "p2" s).1) = [newItem "p1" p1 "optA" optA 2].
Proof.
  intros s.
  apply (add_then_remove_last s "p2" p2 (ProductOption.mk "optK" "K" "ANSI" 300 10));
    reflexivity.
Defined.

Lemma snapshot_upsert (pid oid : string) (n : Z) (fresh : CartItem.t) (c : list CartItem.t) :
  snapshot <$> upsert pid oid n fresh c =
    (snapshot <$> c)
    ++ (match lines_for pid oid c with [] => [snapshot fresh] | _ :: _ => [] end).
Proof.
  unfold lines_for. induction c as [|x c IH]; [done|].
  cbn [upsert List.filter].
  destruct (CartItem.is_line pid oid x).
  - cbn [fmap list_fmap app]. by rewrite app_nil_r.
  - cbn [fmap list_fmap app]. cbn [fmap] in IH. by rewrite IH.
Qed.

(** X11.  A cart line is a snapshot taken when its pair is first added:
    whatever product and option data a later [addToCart] of the same pair
    comes with (after a re-fetch changed names, prices or ceilings), every
    line already in the cart keeps its names, codes, price and maxQuantity;
    only the quantity of the merged line changes, and a line is appended
    only for a pair that was not there. *)
Theorem addToCart_keeps_snapshots (s : PageState) (productId : string)
    (product : Product.t) (o : ProductOption.t) :
  find_product productId (products s) = Some product →
  selected_option productId s = Some o →
  snapshot <$> cart (addToCart productId s).1 =
    (snapshot <$> cart s)
    ++ (match lines_for productId (ProductOption.id o) (cart s) with
        | [] => [snapshot (newItem productId product (ProductOption.id o) o 0)]
        | _ :: _ => []
        end).
Proof.
  intros Hp Ho. rewrite (addToCart_success _ _ _ _ Hp Ho).
  cbn [fst setCart setQuantities setSelectedOptions cart].
  by rewrite addOrMerge_upsert, snapshot_upsert.
Qed.

Lemma addToCart_keeps_snapshots_witness :
  let s :=
    setProducts [p1_restocked; p2]
      (fold_left perform [Select "p1" "optA"; Add "p1"; Select "p1" "optA"] fresh_page) in
  CartItem.maxQuantity <$> cart (addToCart "p1" s).1 = [5%Z]
  ∧ CartItem.quantity <$> cart (addToCart "p1" s).1 = [2%Z].
Proof.
  intros s.
  pose proof (addToCart_keeps_snapshots s "p1" p1_restocked
                (ProductOption.mk "optA" "A" "Black" 1000 2) eq_refl eq_refl) as H.
  apply (f_equal (fmap CartItem.maxQuantity)) in H.
  split; [|reflexivity]. revert H. vm_compute. done.
Defined.
